(** * Bot-Catalog: the project database managers of [db_project/logic.py]

    The module talks to an SQLite file through Python's [sqlite3].  The
    development below embeds

    - the part of the engine the module's statements exercise: storage
      classes, table definitions with their column constraints, the catalogue
      of tables, and the meaning of the statement shapes that occur in the
      source ([CREATE TABLE], [PRAGMA foreign_keys], single-table and joined
      [SELECT], [INSERT \[OR IGNORE\]], [UPDATE], [DELETE]);
    - the two classes of the file, [DatabaseManager] and [DB_Manager], method
      by method, as state-passing functions over the database, and [main]
      of [run_create.py].  The two [DB_Manager] classes of the file have the
      same [create_tables].  [create_youtube_table] is left out: its
      AUTOINCREMENT key brings in the engine's sequence table.

    Conventions of the model:

    - Python [None], [int] and [str] are the storage classes [VNull], [VInt]
      and [VText].  A value is stored and compared in the class it is bound
      with: the conversions of column affinity (a str ['7'] bound against an
      INTEGER column is stored and compared as the integer 7) and the
      [OverflowError] of [sqlite3] for an int outside 64 bits are not
      modelled.  The properties of the methods that bind arguments of the
      caller therefore take them of the class of their column, [integer_arg]
      for an INTEGER column and [text_arg] for a TEXT column, where neither
      comes into play.
    - A table is scanned in rowid order.  No [INSERT] of the module names the
      INTEGER PRIMARY KEY column, so every new row receives the next rowid and
      is the last one of the scan.
    - FOREIGN KEY clauses are recorded in the table definitions.  They bind
      only on a connection that has turned enforcement on; the data statements
      modelled here all run on connections of [DB_Manager], which never does.
    - A raised Python exception is the [inl] of a [result]; every method
      returns the database it leaves behind next to its result. *)

From stdpp Require Import gmap strings list fin_maps sorting.
From Stdlib Require Import ZArith Lia.

Local Open Scope Z_scope.

(** ** Values and rows *)

Inductive value : Type :=
| VNull
| VInt (n : Z)
| VText (s : string).

#[global] Instance value_eq_dec : EqDecision value.
Proof. solve_decision. Defined.

#[global] Instance value_inhabited : Inhabited value := populate VNull.

(** A stored row, and also a result tuple handed back to Python. *)
Abbreviation row := (list value).

(** [a = b] inside a WHERE or ON clause selects a row only when the comparison
    is true; a comparison with NULL is NULL, and values of different classes
    are never equal.  This is the comparison of two values as they are: of a
    column with a bound value of the class of the column, or of two columns
    of one affinity. *)
Definition sql_eq (a b : value) : bool :=
  match a, b with
  | VInt x, VInt y => bool_decide (x = y)
  | VText s, VText t => bool_decide (s = t)
  | _, _ => false
  end.

(** ** Exceptions *)

Inductive exn : Type :=
| ValueError (msg : string)
| TypeError (msg : string)
| IndexError (msg : string)
| OperationalError (msg : string)
| IntegrityError (msg : string)
| ProgrammingError (msg : string).

#[global] Instance exn_eq_dec : EqDecision exn.
Proof. solve_decision. Defined.

Definition result (A : Type) : Type := exn + A.

Definition ret {A} (a : A) : result A := inr a.
Definition raise {A} (e : exn) : result A := inl e.
Definition rbind {A B} (m : result A) (k : A -> result B) : result B :=
  match m with
  | inl e => inl e
  | inr a => k a
  end.

Notation "x <- m ;; k" := (rbind m (fun x => k))
  (at level 100, m at next level, right associativity).

Fixpoint rmap {A B} (f : A -> result B) (l : list A) : result (list B) :=
  match l with
  | [] => ret []
  | a :: l' => b <- f a ;; bs <- rmap f l' ;; ret (b :: bs)
  end.

Fixpoint rfold {A S} (f : A -> S -> result S) (l : list A) (s : S) : result S :=
  match l with
  | [] => ret s
  | a :: l' => s' <- f a s ;; rfold f l' s'
  end.

(** ** Table definitions and the catalogue *)

Inductive affinity : Type := INTEGER | TEXT.

Record column : Type := Column {
  col_name : string;
  col_type : affinity;
  col_primary_key : bool;
  col_not_null : bool;
  col_unique : bool
}.

Inductive on_delete : Type := NoAction | Cascade | SetNull.

Record foreign_key : Type := ForeignKey {
  fk_column : string;
  fk_table : string;
  fk_parent : string;
  fk_on_delete : on_delete
}.

Record table_def : Type := TableDef {
  td_columns : list column;
  td_foreign_keys : list foreign_key
}.

Record table : Type := Table {
  tbl_def : table_def;
  tbl_rows : list row
}.

#[global] Instance affinity_eq_dec : EqDecision affinity.
Proof. solve_decision. Defined.
#[global] Instance column_eq_dec : EqDecision column.
Proof. solve_decision. Defined.
#[global] Instance on_delete_eq_dec : EqDecision on_delete.
Proof. solve_decision. Defined.
#[global] Instance foreign_key_eq_dec : EqDecision foreign_key.
Proof. solve_decision. Defined.
#[global] Instance table_def_eq_dec : EqDecision table_def.
Proof. solve_decision. Defined.
#[global] Instance table_eq_dec : EqDecision table.
Proof. solve_decision. Defined.

(** The database file: its tables by name. *)
Abbreviation database := (gmap string table).

(** Position of a column in a table definition. *)
Fixpoint col_index_from (i : nat) (cs : list column) (c : string)
  : option nat :=
  match cs with
  | [] => None
  | k :: cs' => if bool_decide (col_name k = c) then Some i
                else col_index_from (S i) cs' c
  end.

Definition col_index (def : table_def) (c : string) : option nat :=
  col_index_from 0 (td_columns def) c.

Definition field (i : nat) (r : row) : value := default VNull (r !! i).

Definition no_such_table {A} (t : string) : result A :=
  raise (OperationalError ("no such table: " +:+ t)).

Definition no_such_column {A} (c : string) : result A :=
  raise (OperationalError ("no such column: " +:+ c)).

Definition get_table (t : string) (d : database) : result table :=
  match d !! t with
  | Some tb => ret tb
  | None => no_such_table t
  end.

Definition get_col (def : table_def) (c : string) : result nat :=
  match col_index def c with
  | Some i => ret i
  | None => no_such_column c
  end.

Definition bad_bindings {A} : result A :=
  raise (ProgrammingError "Incorrect number of bindings supplied").

(** Positional binding of the [?] placeholders of a statement. *)
Fixpoint bind_params {A} (names : list A) (params : list value)
  : result (list (A * value)) :=
  match names, params with
  | [], [] => ret []
  | n :: names', p :: params' =>
      l <- bind_params names' params' ;; ret ((n, p) :: l)
  | _, _ => bad_bindings
  end.

(** ** Queries: FROM, JOIN, WHERE, SELECT *)

(** The rows of a FROM clause: one stored row for each joined table, in the
    order the tables are written. *)
Record source : Type := Source {
  src_tables : list (string * table_def);
  src_rows : list (list row)
}.

(** A column written [table.column]. *)
Abbreviation colref := (string * string)%type.

Fixpoint resolve_from (i : nat) (ts : list (string * table_def)) (c : colref)
  : result (nat * nat) :=
  match ts with
  | [] => no_such_column (c.1 +:+ "." +:+ c.2)
  | td :: ts' =>
      if bool_decide (td.1 = c.1)
      then j <- get_col td.2 c.2 ;; ret (i, j)
      else resolve_from (S i) ts' c
  end.

Definition resolve (ts : list (string * table_def)) (c : colref)
  : result (nat * nat) := resolve_from 0 ts c.

Definition cell (p : nat * nat) (jr : list row) : value :=
  field p.2 (default [] (jr !! p.1)).

(** [FROM t] *)
Definition scan (t : string) (d : database) : result source :=
  tb <- get_table t d ;;
  ret (Source [(t, tbl_def tb)] (map (fun r => [r]) (tbl_rows tb))).

(** [s JOIN t ON l = r], as a nested loop in the order written. *)
Definition join (t : string) (l r : colref) (d : database) (s : source)
  : result source :=
  tb <- get_table t d ;;
  let ts := src_tables s ++ [(t, tbl_def tb)] in
  pl <- resolve ts l ;;
  pr <- resolve ts r ;;
  ret (Source ts
         (List.flat_map
            (fun jr =>
               List.filter (fun jr' => sql_eq (cell pl jr') (cell pr jr'))
                           (map (fun x => jr ++ [x]) (tbl_rows tb)))
            (src_rows s))).

(** [WHERE c1 = ? AND c2 = ? ...] with the placeholders already bound. *)
Definition where_all (conds : list (colref * value)) (s : source)
  : result source :=
  ps <- rmap (fun cv => p <- resolve (src_tables s) cv.1 ;; ret (p, cv.2)) conds ;;
  ret (Source (src_tables s)
         (List.filter
            (fun jr => forallb (fun pv => sql_eq (cell pv.1 jr) pv.2) ps)
            (src_rows s))).

(** [SELECT c1, c2, ...] *)
Definition select (cols : list colref) (s : source) : result (list row) :=
  ps <- rmap (resolve (src_tables s)) cols ;;
  ret (map (fun jr => map (fun p => cell p jr) ps) (src_rows s)).

(** A prepared SELECT: from the bound parameters to the fetched rows. *)
Definition query : Type := list value -> database -> result (list row).

(** A prepared INSERT, UPDATE or DELETE: from the bound parameters to the
    database after the statement. *)
Definition stmt : Type := list value -> database -> result database.

(** [SELECT cols FROM t WHERE c1 = ? AND c2 = ? ...] *)
Definition sql_select (cols : list string) (t : string) (conds : list string)
  : query :=
  fun params d =>
    s <- scan t d ;;
    _ <- rmap (resolve (src_tables s)) (map (pair t) (cols ++ conds)) ;;
    bs <- bind_params (map (pair t) conds) params ;;
    s' <- where_all bs s ;;
    select (map (pair t) cols) s'.

(** [SELECT * FROM t] *)
Definition sql_select_star (t : string) : query :=
  fun params d =>
    tb <- get_table t d ;;
    sql_select (map col_name (td_columns (tbl_def tb))) t [] params d.

(** ** Data modification: INSERT, UPDATE, DELETE *)

Definition max_rowid (i : nat) (rows : list row) : option Z :=
  foldr (fun r m =>
           match field i r, m with
           | VInt n, Some k => Some (Z.max n k)
           | VInt n, None => Some n
           | _, _ => m
           end) None rows.

(** The rowid given to a row inserted without one: 1 in an empty table, else
    one more than the largest rowid in use. *)
Definition next_rowid (i : nat) (rows : list row) : Z :=
  match max_rowid i rows with
  | Some k => k + 1
  | None => 1
  end.

Fixpoint assoc (c : string) (bs : list (string * value)) : value :=
  match bs with
  | [] => VNull
  | b :: bs' => if bool_decide (b.1 = c) then b.2 else assoc c bs'
  end.

(** The row an INSERT builds: the bound value for a named column, NULL for the
    others, and the next rowid for an INTEGER PRIMARY KEY left NULL.  A bound
    value of the class of its column is stored as it is. *)
Definition new_row (def : table_def) (rows : list row)
    (bs : list (string * value)) : row :=
  imap (fun i c =>
          match assoc (col_name c) bs with
          | VNull => if col_primary_key c then VInt (next_rowid i rows) else VNull
          | v => v
          end) (td_columns def).

Definition is_null (v : value) : bool :=
  match v with VNull => true | _ => false end.

(** First constraint of [def] the row [r] would break next to [rows]:
    NOT NULL columns, then UNIQUE and PRIMARY KEY columns. *)
Fixpoint not_null_failure (t : string) (i : nat) (cs : list column) (r : row)
  : option exn :=
  match cs with
  | [] => None
  | c :: cs' =>
      if col_not_null c && is_null (field i r)
      then Some (IntegrityError
                   ("NOT NULL constraint failed: " +:+ t +:+ "." +:+ col_name c))
      else not_null_failure t (S i) cs' r
  end.

Fixpoint unique_failure (t : string) (i : nat) (cs : list column)
    (rows : list row) (r : row) : option exn :=
  match cs with
  | [] => None
  | c :: cs' =>
      if (col_unique c || col_primary_key c)
         && existsb (fun r' => sql_eq (field i r') (field i r)) rows
      then Some (IntegrityError
                   ("UNIQUE constraint failed: " +:+ t +:+ "." +:+ col_name c))
      else unique_failure t (S i) cs' rows r
  end.

Definition constraint_failure (t : string) (def : table_def)
    (rows : list row) (r : row) : option exn :=
  match not_null_failure t 0 (td_columns def) r with
  | Some e => Some e
  | None => unique_failure t 0 (td_columns def) rows r
  end.

(** [INSERT INTO t (cols) VALUES (?, ...)], or [INSERT OR IGNORE] when
    [or_ignore]: a row that breaks a NOT NULL, UNIQUE or PRIMARY KEY
    constraint of the table is then skipped instead of raising. *)
Definition sql_insert (or_ignore : bool) (t : string) (cols : list string)
  : stmt :=
  fun params d =>
    tb <- get_table t d ;;
    _ <- rmap (get_col (tbl_def tb)) cols ;;
    bs <- bind_params cols params ;;
    let r := new_row (tbl_def tb) (tbl_rows tb) bs in
    match constraint_failure t (tbl_def tb) (tbl_rows tb) r with
    | Some e => if or_ignore then ret d else raise e
    | None => ret (<[t := Table (tbl_def tb) (tbl_rows tb ++ [r])]> d)
    end.

(** The rows a [WHERE c1 = ? AND ...] of a single-table statement selects,
    with the columns resolved to positions. *)
Definition hit (bs : list (nat * value)) (r : row) : bool :=
  forallb (fun iv => sql_eq (field iv.1 r) iv.2) bs.

(** [UPDATE t SET c = ? WHERE c1 = ? AND ...] *)
Definition sql_update (t : string) (c : string) (conds : list string) : stmt :=
  fun params d =>
    tb <- get_table t d ;;
    j <- get_col (tbl_def tb) c ;;
    ps <- rmap (get_col (tbl_def tb)) conds ;;
    match params with
    | [] => bad_bindings
    | v :: ws =>
        bs <- bind_params ps ws ;;
        let rows := tbl_rows tb in
        let cdef := default (Column c TEXT false false false)
                            (td_columns (tbl_def tb) !! j) in
        let hits := List.filter (hit bs) rows in
        let rest := List.filter (fun r => negb (hit bs r)) rows in
        if bool_decide (hits = []) then ret d
        else if col_not_null cdef && is_null v
        then raise (IntegrityError
                      ("NOT NULL constraint failed: " +:+ t +:+ "." +:+ c))
        else if (col_unique cdef || col_primary_key cdef)
                && (bool_decide (1 < length hits)%nat
                    || existsb (fun r => sql_eq (field j r) v) rest)
        then raise (IntegrityError
                      ("UNIQUE constraint failed: " +:+ t +:+ "." +:+ c))
        else ret (<[t := Table (tbl_def tb)
                            (map (fun r => if hit bs r then <[j := v]> r else r)
                                 rows)]> d)
    end.

(** [DELETE FROM t WHERE c1 = ? AND ...] *)
Definition sql_delete (t : string) (conds : list string) : stmt :=
  fun params d =>
    tb <- get_table t d ;;
    ps <- rmap (get_col (tbl_def tb)) conds ;;
    bs <- bind_params ps params ;;
    ret (<[t := Table (tbl_def tb)
                 (List.filter (fun r => negb (hit bs r)) (tbl_rows tb))]> d).

(** ** Connections and schema statements *)

Inductive statement : Type :=
| PragmaForeignKeysOn
| CreateTable (if_not_exists : bool) (name : string) (def : table_def).

Definition is_ddl (s : statement) : bool :=
  match s with
  | CreateTable _ _ _ => true
  | PragmaForeignKeysOn => false
  end.

(** A connection: the enforcement switch, off when the connection is opened,
    the database, and the statements executed so far, each with the state of
    the switch when it ran. *)
Record connection : Type := Connection {
  foreign_keys : bool;
  conn_db : database;
  conn_trace : list (statement * bool)
}.

Definition connect (d : database) : connection := Connection false d [].

(** State and exceptions: what a block of Python statements does to [S]. *)
Definition M (S A : Type) : Type := S -> result A * S.

Definition mret {S A} (a : A) : M S A := fun s => (inr a, s).
Definition mraise {S A} (e : exn) : M S A := fun s => (inl e, s).
Definition mbind' {S A B} (m : M S A) (k : A -> M S B) : M S B :=
  fun s =>
    match m s with
    | (inl e, s') => (inl e, s')
    | (inr a, s') => k a s'
    end.

(** A computation that may raise but does not touch the state. *)
Definition lift {S A} (r : result A) : M S A := fun s => (r, s).

Notation "x <~ m ;; k" := (mbind' m (fun x => k))
  (at level 100, m at next level, right associativity).

(** [conn.execute(s)]; schema statements take effect at once, they are not
    part of a transaction the connection could roll back. *)
Definition conn_execute (s : statement) : M connection unit :=
  fun c =>
    let tr := conn_trace c ++ [(s, foreign_keys c)] in
    match s with
    | PragmaForeignKeysOn => (inr tt, Connection true (conn_db c) tr)
    | CreateTable if_not_exists name def =>
        match conn_db c !! name with
        | Some _ =>
            if if_not_exists
            then (inr tt, Connection (foreign_keys c) (conn_db c) tr)
            else (inl (OperationalError
                         ("table " +:+ name +:+ " already exists")),
                  Connection (foreign_keys c) (conn_db c) tr)
        | None =>
            (inr tt, Connection (foreign_keys c)
                                (<[name := Table def []]> (conn_db c)) tr)
        end
    end.

(** [with sqlite3.connect(database) as conn: body]: the block runs on a fresh
    connection; what the method leaves behind is that connection's database. *)
Definition run_connection {A} (body : M connection A) (d : database)
  : result A * connection := body (connect d).

Definition with_connection {A} (body : M connection A) : M database A :=
  fun d => let rc := run_connection body d in (rc.1, conn_db rc.2).

(** ** Python helpers *)

(** [x[i]] on a tuple. *)
Definition item (i : nat) (x : row) : result value :=
  match x !! i with
  | Some v => ret v
  | None => raise (IndexError "tuple index out of range")
  end.

Definition expect_str (v : value) : result string :=
  match v with
  | VText s => ret s
  | _ => raise (TypeError "sequence item: expected str instance")
  end.

(** [sep.join(l)] *)
Definition str_join (sep : string) (l : list value) : result string :=
  ss <- rmap expect_str l ;; ret (String.concat sep ss).

(** ** LEFT JOIN, ORDER BY and transactions *)

(** [s LEFT JOIN t ON l = r]: as [join], but a row of [s] that no row of [t]
    matches is kept, with NULL in every column of [t]. *)
Definition left_join (t : string) (l r : colref) (d : database) (s : source)
  : result source :=
  tb <- get_table t d ;;
  let ts := src_tables s ++ [(t, tbl_def tb)] in
  pl <- resolve ts l ;;
  pr <- resolve ts r ;;
  ret (Source ts
         (List.flat_map
            (fun jr =>
               match List.filter
                       (fun jr' => sql_eq (cell pl jr') (cell pr jr'))
                       (map (fun x => jr ++ [x]) (tbl_rows tb)) with
               | [] => [jr ++ [replicate (length (td_columns (tbl_def tb)))
                                         VNull]]
               | matches => matches
               end)
            (src_rows s))).

(** [ORDER BY name] under the default collation: byte-wise comparison. *)
Definition name_le (a b : string) : Prop := String.leb a b = true.

#[global] Instance name_le_dec : RelDecision name_le.
Proof. intros a b. unfold name_le. apply _. Defined.

(** The names [sqlite_master] lists with type ['table']. *)
Definition table_names (d : database) : list string := (map_to_list d).*1.

(** A connection with its open transaction: the database as last committed
    and the database the statements of the transaction have produced. *)
Record session : Type := Session {
  ses_foreign_keys : bool;
  ses_committed : database;
  ses_pending : database
}.

Definition ses_open (d : database) : session := Session false d d.

(** A statement a caller hands over as text: what it fetches and what it
    does to the database, given the parameters and the state of the
    enforcement switch. *)
Definition sql_text : Type :=
  bool -> list value -> database -> result (list row * database).

(** [conn.execute("PRAGMA foreign_keys = ON;")] *)
Definition ses_pragma_on : M session unit :=
  fun s => (inr tt, Session true (ses_committed s) (ses_pending s)).

(** [cur.execute(sql, params)]; a statement that raises leaves nothing of
    its own behind. *)
Definition cur_execute (sql : sql_text) (params : list value)
  : M session (list row) :=
  fun s =>
    match sql (ses_foreign_keys s) params (ses_pending s) with
    | inl e => (inl e, s)
    | inr (rows, d') =>
        (inr rows, Session (ses_foreign_keys s) (ses_committed s) d')
    end.


(** [conn.commit()] *)
Definition ses_commit : M session unit :=
  fun s => (inr tt, Session (ses_foreign_keys s) (ses_pending s) (ses_pending s)).

(** [with sqlite3.connect(database) as conn: body]: leaving the block
    commits, leaving it by an exception rolls back. *)
Definition with_session {A} (body : M session A) : M database A :=
  fun d =>
    match body (ses_open d) with
    | (inr a, s) => (inr a, ses_pending s)
    | (inl e, s) => (inl e, ses_committed s)
    end.

(** ** class DatabaseManager *)

Module DatabaseManager.

Definition users_def : table_def :=
  TableDef
    [ Column "user_id" INTEGER true false false;
      Column "username" TEXT false true true;
      Column "email" TEXT false false false;
      Column "joined_at" TEXT false false false ]
    [].

Definition status_def : table_def :=
  TableDef
    [ Column "status_id" INTEGER true false false;
      Column "name" TEXT false true true ]
    [].

Definition projects_def : table_def :=
  TableDef
    [ Column "project_id" INTEGER true false false;
      Column "user_id" INTEGER false false false;
      Column "project_name" TEXT false true false;
      Column "description" TEXT false false false;
      Column "url" TEXT false false false;
      Column "status_id" INTEGER false false false ]
    [ ForeignKey "user_id" "users" "user_id" Cascade;
      ForeignKey "status_id" "status" "status_id" SetNull ].

(** [CREATE TABLE IF NOT EXISTS users ...] and the two after it. *)
Definition sql_users : statement := CreateTable true "users" users_def.
Definition sql_status : statement := CreateTable true "status" status_def.
Definition sql_projects : statement :=
  CreateTable true "projects" projects_def.

(** The body of the [with] block of [create_tables]. *)
Definition create_tables_body : M connection unit :=
  _ <~ conn_execute PragmaForeignKeysOn ;;
  _ <~ conn_execute sql_users ;;
  _ <~ conn_execute sql_status ;;
  conn_execute sql_projects.

Definition create_tables : M database unit :=
  with_connection create_tables_body.

(** [SELECT name FROM sqlite_master WHERE type='table' ORDER BY name] and the
    list of the first column. *)
Definition list_tables : M database (list string) :=
  fun d => (inr (merge_sort name_le (table_names d)), d).

(** [execute] returns the cursor; the model returns what the cursor holds. *)
Definition execute (sql : sql_text) (params : list value) (commit : bool)
  : M database (list row) :=
  with_session
    (_ <~ ses_pragma_on ;;
     cur <~ cur_execute sql params ;;
     _ <~ (if commit then ses_commit else mret tt) ;;
     mret cur).


Definition fetchall (sql : sql_text) (params : list value)
  : M database (list row) :=
  execute sql params false.

End DatabaseManager.

(** ** class DB_Manager *)

(** The module-level seed lists, lists of 1-tuples. *)
Definition skills : list row :=
  map (fun s => [VText s]) ["Python"; "SQL"; "API"; "Discord"].

Definition statuses : list row :=
  map (fun s => [VText s])
      ["Pembuatan Prototipe"; "Dalam Pengembangan"; "Selesai, siap digunakan";
       "Diperbarui"; "Selesai, tapi tidak sedang dilanjutkan"].

Module DB_Manager.

Definition projects_def : table_def :=
  TableDef
    [ Column "project_id" INTEGER true false false;
      Column "user_id" INTEGER false false false;
      Column "project_name" TEXT false true false;
      Column "description" TEXT false false false;
      Column "url" TEXT false false false;
      Column "status_id" INTEGER false false false ]
    [ ForeignKey "status_id" "status" "status_id" NoAction ].

Definition skills_def : table_def :=
  TableDef
    [ Column "skill_id" INTEGER true false false;
      Column "skill_name" TEXT false false false ]
    [].

Definition project_skills_def : table_def :=
  TableDef
    [ Column "project_id" INTEGER false false false;
      Column "skill_id" INTEGER false false false ]
    [ ForeignKey "project_id" "projects" "project_id" NoAction;
      ForeignKey "skill_id" "skills" "skill_id" NoAction ].

Definition status_def : table_def :=
  TableDef
    [ Column "status_id" INTEGER true false false;
      Column "status_name" TEXT false false false ]
    [].

(** The body of the [with] block of [create_tables]; the closing
    [conn.commit()] has nothing left to commit. *)
Definition create_tables_body : M connection unit :=
  _ <~ conn_execute (CreateTable false "projects" projects_def) ;;
  _ <~ conn_execute (CreateTable false "skills" skills_def) ;;
  _ <~ conn_execute (CreateTable false "project_skills" project_skills_def) ;;
  conn_execute (CreateTable false "status" status_def).

Definition create_tables : M database unit :=
  with_connection create_tables_body.

(** [conn.executemany(sql, data)] inside [with conn:]: one transaction,
    committed when every row went through, rolled back by the first
    exception.  The connection is opened with foreign-key enforcement off
    and nothing turns it on, so FOREIGN KEY clauses constrain none of the
    statements run here. *)
Definition __executemany (sql : stmt) (data : list row) : M database unit :=
  fun d =>
    match rfold sql data d with
    | inl e => (inl e, d)
    | inr d' => (inr tt, d')
    end.

Definition __select_data (sql : query) (data : row) : M database (list row) :=
  fun d => (sql data d, d).

Definition default_insert : M database unit :=
  let sql := sql_insert true "skills" ["skill_name"] in
  let data := skills in
  _ <~ __executemany sql data ;;
  let sql := sql_insert true "status" ["status_name"] in
  let data := statuses in
  __executemany sql data.

Definition insert_project (data : list row) : M database unit :=
  let sql := sql_insert false "projects"
               ["user_id"; "project_name"; "description"; "url"; "status_id"] in
  __executemany sql data.

Definition insert_skill (user_id project_name skill : value)
  : M database unit :=
  let sql := sql_select ["project_id"] "projects" ["project_name"; "user_id"] in
  res <~ __select_data sql [project_name; user_id] ;;
  match res with
  | [] => mraise (ValueError "Project not found")
  | r0 :: _ =>
      project_id <~ lift (item 0 r0) ;;
      res <~ __select_data (sql_select ["skill_id"] "skills" ["skill_name"])
                           [skill] ;;
      match res with
      | [] => mraise (ValueError "Skill not found")
      | r0 :: _ =>
          skill_id <~ lift (item 0 r0) ;;
          let data := [[project_id; skill_id]] in
          let sql := sql_insert true "project_skills"
                       ["project_id"; "skill_id"] in
          __executemany sql data
      end
  end.

Definition get_statuses : M database (list row) :=
  let sql := sql_select ["status_id"; "status_name"] "status" [] in
  __select_data sql [].

Definition get_status_id (status_name : value) : M database value :=
  let sql := sql_select ["status_id"] "status" ["status_name"] in
  res <~ __select_data sql [status_name] ;;
  match res with
  | r0 :: _ => lift (item 0 r0)
  | [] => mret VNull
  end.

Definition get_project_id (project_name user_id : value) : M database value :=
  res <~ __select_data
           (sql_select ["project_id"] "projects" ["project_name"; "user_id"])
           [project_name; user_id] ;;
  match res with
  | [] => mraise (ValueError "Project not found")
  | r0 :: _ => lift (item 0 r0)
  end.

Definition get_skills : M database (list row) :=
  __select_data (sql_select_star "skills") [].

(** [SELECT skill_name FROM projects
     JOIN project_skills ON projects.project_id = project_skills.project_id
     JOIN skills ON skills.skill_id = project_skills.skill_id
     WHERE project_name = ?] *)
Definition sql_project_skills : query :=
  fun params d =>
    s <- scan "projects" d ;;
    s <- join "project_skills" ("projects", "project_id")
              ("project_skills", "project_id") d s ;;
    s <- join "skills" ("skills", "skill_id")
              ("project_skills", "skill_id") d s ;;
    bs <- bind_params [("projects", "project_name")] params ;;
    s <- where_all bs s ;;
    select [("skills", "skill_name")] s.

Definition get_project_skills (project_name : value) : M database string :=
  res <~ __select_data sql_project_skills [project_name] ;;
  xs <~ lift (rmap (item 0) res) ;;
  lift (str_join ", " xs).

Definition allowed : gset string :=
  {[ "project_name"; "description"; "url"; "status_id" ]}.

Definition update_projects (param : string) (data : row) : M database unit :=
  if bool_decide (param ∉ allowed)
  then mraise (ValueError "Invalid column")
  else
    let sql := sql_update "projects" param ["user_id"; "project_id"] in
    __executemany sql [data].

Definition delete_project (user_id project_id : value) : M database unit :=
  let sql := sql_delete "projects" ["user_id"; "project_id"] in
  __executemany sql [[user_id; project_id]].

Definition delete_skill (project_id skill_id : value) : M database unit :=
  let sql := sql_delete "project_skills" ["project_id"; "skill_id"] in
  __executemany sql [[project_id; skill_id]].

(** [SELECT projects.project_id, projects.project_name, projects.description,
            projects.url, status.status_name
     FROM projects LEFT JOIN status ON projects.status_id = status.status_id
     WHERE projects.user_id = ?] *)
Definition sql_get_projects : query :=
  fun params d =>
    s <- scan "projects" d ;;
    s <- left_join "status" ("projects", "status_id")
                   ("status", "status_id") d s ;;
    bs <- bind_params [("projects", "user_id")] params ;;
    s <- where_all bs s ;;
    select [ ("projects", "project_id"); ("projects", "project_name");
             ("projects", "description"); ("projects", "url");
             ("status", "status_name") ] s.

Definition get_projects (user_id : value) : M database (list row) :=
  __select_data sql_get_projects [user_id].

(** [SELECT projects.project_name, projects.description, projects.url,
            status.status_name
     FROM projects LEFT JOIN status ON status.status_id = projects.status_id
     WHERE projects.user_id = ? AND projects.project_name = ?] *)
Definition sql_get_project_info : query :=
  fun params d =>
    s <- scan "projects" d ;;
    s <- left_join "status" ("status", "status_id")
                   ("projects", "status_id") d s ;;
    bs <- bind_params [("projects", "user_id"); ("projects", "project_name")]
                      params ;;
    s <- where_all bs s ;;
    select [ ("projects", "project_name"); ("projects", "description");
             ("projects", "url"); ("status", "status_name") ] s.

Definition get_project_info (user_id project_name : value)
  : M database (list row) :=
  __select_data sql_get_project_info [user_id; project_name].

End DB_Manager.

(** ** run_create.py *)

Module run_create.

(** [main]; the value returned is what it prints, line by line. *)
Definition main : M database (list string) :=
  _ <~ DatabaseManager.create_tables ;;
  tables <~ DatabaseManager.list_tables ;;
  mret ("Tables in database:" :: map (fun t => " - " +:+ t) tables).

End run_create.

(** ** The clauses and tables the properties speak of *)

(** The WHERE clause of [get_status_id], on a stored status row. *)
Definition status_named (status_name : value) (r : row) : bool :=
  sql_eq (field 1 r) status_name.

(** The WHERE clause of [get_project_id] and of the first query of
    [insert_skill], on a stored project row. *)
Definition project_named (project_name user_id : value) (r : row) : bool :=
  sql_eq (field 2 r) project_name && sql_eq (field 1 r) user_id.

(** The WHERE clause of the second query of [insert_skill]. *)
Definition skill_named (skill : value) (r : row) : bool :=
  sql_eq (field 1 r) skill.

(** The WHERE clause of [delete_project] and [update_projects]. *)
Definition project_keyed (user_id project_id : value) (r : row) : bool :=
  sql_eq (field 1 r) user_id && sql_eq (field 0 r) project_id.

(** The rows the two joins and the WHERE clause of [sql_project_skills]
    leave: a project, one of its links and the skill the link names. *)
Definition joined (projects links all_skills : list row)
    (project_name : value) : list (list row) :=
  List.filter
    (fun jr => forallb (fun pv : nat * nat * value => sql_eq (cell pv.1 jr) pv.2)
                       [((0, 2)%nat, project_name)])
    (List.flat_map
       (fun jr =>
          List.filter
            (fun jr' => sql_eq (cell (2, 0)%nat jr') (cell (1, 1)%nat jr'))
            (map (fun x => jr ++ [x]) all_skills))
       (List.flat_map
          (fun jr =>
             List.filter
               (fun jr' => sql_eq (cell (0, 0)%nat jr') (cell (1, 0)%nat jr'))
               (map (fun x => jr ++ [x]) links))
          (map (fun r => [r]) projects))).

(** A table of an INTEGER PRIMARY KEY and one unconstrained column, the shape
    of skills and of status. *)
Definition keyed_def (idc namec : string) : table_def :=
  TableDef [ Column idc INTEGER true false false;
             Column namec TEXT false false false ] [].

(** [CREATE TABLE IF NOT EXISTS name ...] on the database. *)
Definition create_if_absent (name : string) (def : table_def) (d : database)
  : database :=
  match d !! name with
  | Some _ => d
  | None => <[name := Table def []]> d
  end.

(** What [DatabaseManager.create_tables] leaves: the three tables, each
    created unless it was there. *)
Definition DatabaseManager_created (d : database) : database :=
  create_if_absent "projects" DatabaseManager.projects_def
    (create_if_absent "status" DatabaseManager.status_def
       (create_if_absent "users" DatabaseManager.users_def d)).

(** The columns [insert_project] binds, in the order of its tuples. *)
Definition project_columns : list string :=
  ["user_id"; "project_name"; "description"; "url"; "status_id"].

(** A tuple [insert_project] can store: five values, the name not [None]. *)
Definition project_tuple_ok (t : row) : Prop :=
  exists u n de ur st, t = [u; n; de; ur; st] /\ n <> VNull.

(** The WHERE clause of [delete_skill], on a stored link. *)
Definition link_keyed (project_id skill_id : value) (r : row) : bool :=
  sql_eq (field 0 r) project_id && sql_eq (field 1 r) skill_id.

(** The WHERE clause of [get_projects]. *)
Definition project_of_user (user_id : value) (r : row) : bool :=
  sql_eq (field 1 r) user_id.

(** The status name a LEFT JOIN on the status id attaches to a project: the
    name of the status row of that id, NULL when there is none. *)
Definition status_name_of (statuses : list row) (status_id : value) : value :=
  match List.find (fun s => sql_eq status_id (field 0 s)) statuses with
  | Some s => field 1 s
  | None => VNull
  end.

(** The row of the joined table a LEFT JOIN puts beside [p]. *)
Definition beside (statuses : list row) (nulls : row)
    (on : row -> row -> bool) (p : row) : row :=
  match List.find (on p) statuses with
  | Some s => s
  | None => nulls
  end.


(** ** Arguments of the class of their column *)

(** An int SQLite can hold: 64 bits, signed.  Binding another int raises
    [OverflowError] in [sqlite3]; the model has no such int among the
    arguments of the properties below. *)
Definition int64 (n : Z) : Prop :=
  -9223372036854775808 <= n <= 9223372036854775807.

(** An argument bound against an INTEGER column, of the class of the column:
    [None] or an int of 64 bits.  A str bound there would be converted by the
    affinity of the column before it is stored or compared, which [sql_eq]
    and [new_row] do not model; the properties take their arguments here. *)
Definition integer_arg (v : value) : Prop :=
  match v with
  | VNull => True
  | VInt n => int64 n
  | VText _ => False
  end.

(** An argument bound against a TEXT column, of the class of the column:
    [None] or a str. *)
Definition text_arg (v : value) : Prop :=
  match v with
  | VNull | VText _ => True
  | VInt _ => False
  end.

(** The class of a new value for a column [update_projects] allows. *)
Definition column_arg (param : string) (v : value) : Prop :=
  if bool_decide (param = "status_id") then integer_arg v else text_arg v.

(** A value SQLite can bind at all: any str or [None], an int of 64 bits. *)
Definition bindable (v : value) : Prop :=
  match v with
  | VInt n => int64 n
  | _ => True
  end.

(** A tuple of [insert_project] with every value of the class of its column
    and a str for the name. *)
Definition project_tuple_typed (t : row) : Prop :=
  exists u n de ur st,
    t = [u; VText n; de; ur; st]
    /\ integer_arg u /\ text_arg de /\ text_arg ur /\ integer_arg st.

(** When [update_projects] is refused: some row is keyed by the pair, the
    column is [project_name], which is NOT NULL, and the value is [None]. *)
Definition update_refused (rows : list row) (param : string)
    (new_value user_id project_id : value) : bool :=
  existsb (project_keyed user_id project_id) rows
  && bool_decide (param = "project_name") && is_null new_value.

(** Ids are left for [n] more rows after [rows]: the ids SQLite gives them,
    each one more than the highest so far, stay within 64 bits.  Past that
    SQLite picks unused ids at random, which the model does not follow. *)
Definition ids_left (rows : list row) (n : nat) : Prop :=
  next_rowid 0 rows + Z.of_nat n <= 9223372036854775808.

(** Discharges a class or range condition on a literal. *)
Ltac of_class :=
  first [ exact I
        | simpl; unfold int64; lia
        | vm_compute; split; discriminate
        | vm_compute; discriminate ].

(** ** Databases built with the methods, from an empty file *)

Definition created : database := (DB_Manager.create_tables ∅).2.
Definition seeded : database := (DB_Manager.default_insert created).2.
Definition seeded_twice : database := (DB_Manager.default_insert seeded).2.

Definition one_project : database :=
  (DB_Manager.insert_project
     [[VInt 7; VText "Bot"; VText "a catalog bot"; VText "http://bot"; VInt 1]]
     seeded).2.
Definition linked : database :=
  (DB_Manager.insert_skill (VInt 7) (VText "Bot") (VText "SQL") one_project).2.
Definition linked_twice : database :=
  (DB_Manager.insert_skill (VInt 7) (VText "Bot") (VText "SQL") linked).2.
Definition two_projects : database :=
  (DB_Manager.insert_project
     [[VInt 7; VText "Bot"; VText "first"; VNull; VInt 1];
      [VInt 7; VText "Bot"; VText "second"; VNull; VInt 2]]
     seeded).2.

Definition second_project : database :=
  (DB_Manager.insert_project
     [[VInt 7; VText "Site"; VText "a web site"; VNull; VInt 2]] linked).2.

Definition bot_row : row :=
  [ VInt 1; VInt 7; VText "Bot"; VText "a catalog bot"; VText "http://bot";
    VInt 1 ].
Definition site_row : row :=
  [VInt 2; VInt 7; VText "Site"; VText "a web site"; VNull; VInt 2].
Definition seeded_skills : list row :=
  [ [VInt 1; VText "Python"]; [VInt 2; VText "SQL"];
    [VInt 3; VText "API"]; [VInt 4; VText "Discord"] ].
Definition seeded_statuses : list row :=
  [ [VInt 1; VText "Pembuatan Prototipe"];
    [VInt 2; VText "Dalam Pengembangan"];
    [VInt 3; VText "Selesai, siap digunakan"];
    [VInt 4; VText "Diperbarui"];
    [VInt 5; VText "Selesai, tapi tidak sedang dilanjutkan"] ].

(** A database with the skills table alone. *)
Definition skills_only : database :=
  <["skills" := Table DB_Manager.skills_def []]> ∅.

Ltac absurd_projects :=
  match goal with
  | H : is_Some None |- _ => destruct H as [? [=]]
  | |- is_Some None -> _ => intros [? [=]]
  end.

(** * Properties *)

(** ** Exceptions over lists, and filters *)

Section ResultLists.
Context {A B C : Type}.

Lemma rmap_app (f : A -> result B) (l1 l2 : list A) :
  rmap f (l1 ++ l2) =
  (a <- rmap f l1 ;; b <- rmap f l2 ;; ret (a ++ b)).
Proof.
  induction l1 as [|x l1 IH]; simpl.
  - destruct (rmap f l2); reflexivity.
  - destruct (f x); simpl; [reflexivity|].
    rewrite IH. destruct (rmap f l1); simpl; [reflexivity|].
    destruct (rmap f l2); reflexivity.
Qed.

Lemma rmap_app_inv (f : A -> result B) (l1 l2 : list A) (bs : list B) :
  rmap f (l1 ++ l2) = inr bs ->
  exists b1 b2, rmap f l1 = inr b1 /\ rmap f l2 = inr b2 /\ bs = b1 ++ b2.
Proof.
  rewrite rmap_app. destruct (rmap f l1) as [e|b1]; simpl; [discriminate|].
  destruct (rmap f l2) as [e|b2]; simpl; [discriminate|].
  intros [= <-]. eauto.
Qed.

Lemma rmap_length (f : A -> result B) (l : list A) (bs : list B) :
  rmap f l = inr bs -> length bs = length l.
Proof.
  revert bs. induction l as [|x l IH]; simpl; intros bs.
  - intros [= <-]. reflexivity.
  - destruct (f x); simpl; [discriminate|].
    destruct (rmap f l) as [e|bs']; simpl; [discriminate|].
    intros [= <-]. simpl. f_equal. apply IH. reflexivity.
Qed.

(** A map through a function that first runs [g] and then wraps with [h]. *)
Lemma rmap_through (f : A -> result C) (g : A -> result B) (h : B -> C)
    (l : list A) (bs : list B) :
  (forall a, f a = (b <- g a ;; ret (h b))) ->
  rmap g l = inr bs ->
  rmap f l = inr (map h bs).
Proof.
  intros Hf. revert bs. induction l as [|x l IH]; simpl; intros bs.
  - intros [= <-]. reflexivity.
  - rewrite Hf. destruct (g x); simpl; [discriminate|].
    destruct (rmap g l) as [e|bs']; simpl; [discriminate|].
    intros [= <-]. rewrite (IH bs' eq_refl). reflexivity.
Qed.

Lemma rmap_map (f : B -> result C) (g : A -> B) (l : list A) :
  rmap f (map g l) = rmap (fun a => f (g a)) l.
Proof.
  induction l as [|x l IH]; simpl; [reflexivity|]. rewrite IH. reflexivity.
Qed.

Lemma filter_map_swap (p : B -> bool) (g : A -> B) (l : list A) :
  List.filter p (map g l) = map g (List.filter (fun a => p (g a)) l).
Proof.
  induction l as [|x l IH]; simpl; [reflexivity|].
  destruct (p (g x)); simpl; rewrite IH; reflexivity.
Qed.

Lemma filter_ext_eq (p q : A -> bool) (l : list A) :
  (forall a, p a = q a) -> List.filter p l = List.filter q l.
Proof.
  intros Hpq. induction l as [|x l IH]; simpl; [reflexivity|].
  rewrite Hpq, IH. reflexivity.
Qed.

Lemma filter_none (p : A -> bool) (l : list A) :
  (forall a, In a l -> p a = false) -> List.filter p l = [].
Proof.
  induction l as [|x l IH]; simpl; intros Hl; [reflexivity|].
  rewrite (Hl x) by auto. apply IH. auto.
Qed.

Lemma filter_all (p : A -> bool) (l : list A) :
  (forall a, In a l -> p a = true) -> List.filter p l = l.
Proof.
  induction l as [|x l IH]; simpl; intros Hl; [reflexivity|].
  rewrite (Hl x) by auto. f_equal. apply IH. auto.
Qed.

(** The first row a filter keeps. *)
Lemma filter_first (p : A -> bool) (pre post : list A) (x : A) :
  (forall a, In a pre -> p a = false) -> p x = true ->
  List.filter p (pre ++ x :: post) = x :: List.filter p post.
Proof.
  intros Hpre Hx. rewrite List.filter_app, (filter_none p pre Hpre).
  simpl. rewrite Hx. reflexivity.
Qed.

End ResultLists.

Lemma bind_params_zip {A} (names : list A) (params : list value) :
  length params = length names ->
  bind_params names params = inr (zip names params).
Proof.
  revert params. induction names as [|n names IH]; intros [|p params]; simpl;
    try discriminate; [reflexivity|].
  intros [= Hlen]. rewrite (IH _ Hlen). reflexivity.
Qed.

(** ** Single-table statements in terms of the stored rows *)

Section SingleTable.
Variables (t : string) (def : table_def).

Lemma resolve_single (c : string) :
  resolve [(t, def)] (t, c) = (j <- get_col def c ;; ret (0%nat, j)).
Proof.
  unfold resolve. simpl. rewrite bool_decide_eq_true_2 by reflexivity.
  reflexivity.
Qed.

Lemma resolve_all_single (cs : list string) (js : list nat) :
  rmap (get_col def) cs = inr js ->
  rmap (resolve [(t, def)]) (map (pair t) cs) = inr (map (pair 0%nat) js).
Proof.
  intros Hjs. rewrite rmap_map.
  apply (rmap_through _ (get_col def)); [|exact Hjs].
  intros c. apply resolve_single.
Qed.

Lemma where_params_single (cs : list string) (js : list nat)
    (params : list value) :
  rmap (get_col def) cs = inr js ->
  rmap (fun cv : colref * value =>
          p <- resolve [(t, def)] cv.1 ;; ret (p, cv.2))
       (zip (map (pair t) cs) params)
  = inr (zip (map (pair 0%nat) js) params).
Proof.
  revert js params. induction cs as [|c cs IH]; simpl; intros js params.
  - intros [= <-]. reflexivity.
  - destruct (get_col def c) as [e|j] eqn:Hc; simpl; [discriminate|].
    destruct (rmap (get_col def) cs) as [e|js'] eqn:Hcs; simpl; [discriminate|].
    intros [= <-]. destruct params as [|p params]; simpl; [reflexivity|].
    rewrite resolve_single, Hc. simpl.
    rewrite (IH js' params eq_refl). reflexivity.
Qed.

Lemma hit_single (js : list nat) (params : list value) (r : row) :
  forallb (fun pv : nat * nat * value => sql_eq (cell pv.1 [r]) pv.2)
          (zip (map (pair 0%nat) js) params)
  = hit (zip js params) r.
Proof.
  unfold hit. revert params.
  induction js as [|j js IH]; intros [|p params]; simpl; try reflexivity.
  rewrite IH. reflexivity.
Qed.

(** [SELECT cols FROM t WHERE conds]: the rows of [t] the conditions hit, in
    stored order, cut down to the selected columns. *)
Lemma sql_select_rows (cols conds : list string) (js ks : list nat)
    (params : list value) (d : database) (rows : list row) :
  d !! t = Some (Table def rows) ->
  rmap (get_col def) cols = inr js ->
  rmap (get_col def) conds = inr ks ->
  length params = length conds ->
  sql_select cols t conds params d
  = inr (map (fun r => map (fun j => field j r) js)
             (List.filter (hit (zip ks params)) rows)).
Proof.
  intros Hd Hjs Hks Hlen.
  unfold sql_select, scan, get_table. rewrite Hd. simpl.
  assert (Hall : rmap (get_col def) (cols ++ conds) = inr (js ++ ks)).
  { rewrite rmap_app, Hjs, Hks. reflexivity. }
  rewrite (resolve_all_single _ _ Hall). simpl.
  rewrite bind_params_zip by (rewrite length_map; exact Hlen). simpl.
  unfold where_all. simpl.
  rewrite (where_params_single _ _ _ Hks). simpl.
  unfold select. simpl.
  rewrite (resolve_all_single _ _ Hjs). simpl.
  rewrite filter_map_swap, map_map. f_equal.
  rewrite (filter_ext_eq _ (hit (zip ks params))) by (intros r; apply hit_single).
  apply map_ext. intros r. rewrite map_map. reflexivity.
Qed.

End SingleTable.

(** [DELETE FROM t WHERE conds] keeps exactly the rows the conditions miss. *)
Lemma sql_delete_rows (t : string) (def : table_def) (conds : list string)
    (ks : list nat) (params : list value) (d : database) (rows : list row) :
  d !! t = Some (Table def rows) ->
  rmap (get_col def) conds = inr ks ->
  length params = length conds ->
  sql_delete t conds params d
  = inr (<[t := Table def
                  (List.filter (fun r => negb (hit (zip ks params) r)) rows)]> d).
Proof.
  intros Hd Hks Hlen. unfold sql_delete, get_table. rewrite Hd. simpl.
  rewrite Hks. simpl.
  rewrite bind_params_zip by (rewrite (rmap_length _ _ _ Hks); exact Hlen).
  reflexivity.
Qed.

(** ** The lookups by name *)

Section Lookups.
Import DB_Manager.
Variable d : database.

Lemma select_status_id (rows : list row) (status_name : value) :
  d !! "status" = Some (Table status_def rows) ->
  sql_select ["status_id"] "status" ["status_name"] [status_name] d
  = inr (map (fun r => [field 0 r])
             (List.filter (status_named status_name) rows)).
Proof.
  intros Hd.
  rewrite (sql_select_rows "status" status_def _ _ [0%nat] [1%nat] _ _ rows Hd)
    by reflexivity.
  f_equal. f_equal. apply filter_ext_eq. intros r.
  unfold hit, status_named. simpl. apply andb_true_r.
Qed.

Lemma select_project_id (rows : list row) (project_name user_id : value) :
  d !! "projects" = Some (Table projects_def rows) ->
  sql_select ["project_id"] "projects" ["project_name"; "user_id"]
             [project_name; user_id] d
  = inr (map (fun r => [field 0 r])
             (List.filter (project_named project_name user_id) rows)).
Proof.
  intros Hd.
  rewrite (sql_select_rows "projects" projects_def _ _ [0%nat] [2%nat; 1%nat]
                           _ _ rows Hd) by reflexivity.
  f_equal. f_equal. apply filter_ext_eq. intros r.
  unfold hit, project_named. simpl. rewrite andb_true_r. reflexivity.
Qed.

(** C7. On a database that has the status table, [get_status_id] raises for
    no status name, a str or [None]: it returns the id of a stored row with
    that name when there is one, and [None] when there is none; the database
    is as it was. *)
Theorem get_status_id_never_raises (rows : list row) (status_name : value) :
  d !! "status" = Some (Table status_def rows) ->
  text_arg status_name ->
  exists v : value,
    get_status_id status_name d = (inr v, d)
    /\ ((exists r, In r rows /\ status_named status_name r = true) ->
        exists r, In r rows /\ status_named status_name r = true
                  /\ v = field 0 r)
    /\ ((forall r, In r rows -> status_named status_name r = false) ->
        v = VNull).
Proof.
  intros Hd _. unfold get_status_id, __select_data, mbind'.
  rewrite (select_status_id rows status_name Hd).
  destruct (List.filter (status_named status_name) rows) as [|r0 rest] eqn:Hf;
    simpl.
  - exists VNull. split; [reflexivity|]. split; [|reflexivity].
    intros (r & Hin & Hr). exfalso.
    assert (Hr0 : In r (List.filter (status_named status_name) rows))
      by (apply filter_In; auto).
    rewrite Hf in Hr0. destruct Hr0.
  - exists (field 0 r0). split; [reflexivity|].
    assert (Hr0 : In r0 (List.filter (status_named status_name) rows))
      by (rewrite Hf; left; reflexivity).
    apply filter_In in Hr0 as [Hin Hr]. split.
    + intros _. exists r0. auto.
    + intros Hnone. rewrite (Hnone r0 Hin) in Hr. discriminate.
Qed.

(** C6, as the code has it.  For a name that is a str or [None] and a user
    that is an int of 64 bits or [None], [get_project_id] returns the id of
    the first stored project whose name and user equal the arguments, and
    raises [ValueError("Project not found")] when no stored project does; the
    database is as it was. *)
Theorem get_project_id_first_match (rows : list row)
    (project_name user_id : value) :
  d !! "projects" = Some (Table projects_def rows) ->
  text_arg project_name ->
  integer_arg user_id ->
  (forall pre r post,
      rows = pre ++ r :: post ->
      (forall r', In r' pre -> project_named project_name user_id r' = false) ->
      project_named project_name user_id r = true ->
      get_project_id project_name user_id d = (inr (field 0 r), d))
  /\ ((forall r, In r rows -> project_named project_name user_id r = false) ->
      get_project_id project_name user_id d
      = (inl (ValueError "Project not found"), d)).
Proof.
  intros Hd _ _. unfold get_project_id, __select_data, mbind'.
  rewrite (select_project_id rows project_name user_id Hd). split.
  - intros pre r post -> Hpre Hr.
    rewrite (filter_first _ pre post r Hpre Hr). reflexivity.
  - intros Hnone. rewrite (filter_none _ rows Hnone). reflexivity.
Qed.

(** C8. When no stored project has the given user and project id, each an
    int of 64 bits or [None], [delete_project] returns normally and the whole
    database, every row of every table, is what it was. *)
Theorem delete_project_absent (rows : list row) (user_id project_id : value) :
  d !! "projects" = Some (Table projects_def rows) ->
  integer_arg user_id ->
  integer_arg project_id ->
  (forall r, In r rows -> project_keyed user_id project_id r = false) ->
  delete_project user_id project_id d = (inr tt, d).
Proof.
  intros Hd _ _ Hnone. unfold delete_project, __executemany. simpl.
  rewrite (sql_delete_rows "projects" projects_def _ [1%nat; 0%nat] _ _ rows Hd)
    by reflexivity.
  simpl. rewrite filter_all.
  - rewrite (insert_id d "projects" _ Hd). reflexivity.
  - intros r Hin. specialize (Hnone r Hin). unfold project_keyed in Hnone.
    unfold hit. simpl. rewrite andb_true_r, Hnone. reflexivity.
Qed.

(** C4. A column name outside the allow-list makes [update_projects] raise
    [ValueError("Invalid column")], whatever the values tuple, and the
    database is left exactly as it was. *)
Theorem update_projects_invalid_column (param : string) (data : row) :
  ~ In param ["project_name"; "description"; "url"; "status_id"] ->
  update_projects param data d = (inl (ValueError "Invalid column"), d).
Proof.
  intros Hnot. unfold update_projects.
  rewrite bool_decide_eq_true_2; [reflexivity|].
  unfold allowed. intros Hin. apply Hnot. simpl.
  rewrite !elem_of_union, !elem_of_singleton in Hin. intuition auto.
Qed.

End Lookups.

(** ** Updating one column *)

Lemma sql_eq_true (a b : value) : sql_eq a b = true -> a = b.
Proof.
  destruct a, b; simpl; try discriminate;
    intros H; apply bool_decide_eq_true_1 in H; congruence.
Qed.

(** [UPDATE t SET c = ? WHERE conds], column by column of the definition. *)
Lemma sql_update_rows (t : string) (def : table_def) (c : string) (j : nat)
    (cdef : column) (conds : list string) (ks : list nat) (v : value)
    (ws : list value) (d : database) (rows : list row) :
  d !! t = Some (Table def rows) ->
  get_col def c = inr j ->
  td_columns def !! j = Some cdef ->
  rmap (get_col def) conds = inr ks ->
  length ws = length conds ->
  sql_update t c conds (v :: ws) d
  = if bool_decide (List.filter (hit (zip ks ws)) rows = []) then inr d
    else if col_not_null cdef && is_null v
    then inl (IntegrityError
                ("NOT NULL constraint failed: " +:+ t +:+ "." +:+ c))
    else if (col_unique cdef || col_primary_key cdef)
            && (bool_decide (1 < length (List.filter (hit (zip ks ws)) rows))%nat
                || existsb (fun r => sql_eq (field j r) v)
                     (List.filter (fun r => negb (hit (zip ks ws) r)) rows))
    then inl (IntegrityError
                ("UNIQUE constraint failed: " +:+ t +:+ "." +:+ c))
    else inr (<[t := Table def
                       (map (fun r => if hit (zip ks ws) r then <[j := v]> r
                                      else r) rows)]> d).
Proof.
  intros Hd Hj Hc Hks Hlen. unfold sql_update, get_table. rewrite Hd. simpl.
  rewrite Hj. simpl. rewrite Hks. simpl.
  rewrite bind_params_zip by (rewrite (rmap_length _ _ _ Hks); exact Hlen).
  simpl. rewrite Hc. reflexivity.
Qed.

Section Update.
Import DB_Manager.
Variable d : database.

(** What [update_projects] does for an allowed column at position [j]:
    nothing when no row is keyed by the pair, an [IntegrityError] when the
    column is NOT NULL and the value is [None], and otherwise the value
    written at [j] in the keyed rows. *)
Lemma update_projects_rows (rows : list row) (param : string) (j : nat)
    (cdef : column) (v user_id project_id : value) :
  d !! "projects" = Some (Table projects_def rows) ->
  param ∈ allowed ->
  get_col projects_def param = inr j ->
  td_columns projects_def !! j = Some cdef ->
  col_unique cdef || col_primary_key cdef = false ->
  update_projects param [v; user_id; project_id] d
  = if bool_decide (List.filter (project_keyed user_id project_id) rows = [])
    then (inr tt, d)
    else if col_not_null cdef && is_null v
    then (inl (IntegrityError
                 ("NOT NULL constraint failed: projects." +:+ param)), d)
    else (inr tt,
          <["projects" := Table projects_def
               (map (fun r => if project_keyed user_id project_id r
                              then <[j := v]> r else r) rows)]> d).
Proof.
  intros Hd Hin Hj Hc Hu. unfold update_projects.
  rewrite bool_decide_eq_false_2 by (intros Hn; exact (Hn Hin)).
  unfold __executemany, rfold.
  rewrite (sql_update_rows "projects" projects_def param j cdef _
             [1%nat; 0%nat] v _ d rows Hd Hj Hc) by reflexivity.
  rewrite Hu, andb_false_l.
  assert (Hk : forall r, hit (zip [1%nat; 0%nat] [user_id; project_id]) r
                         = project_keyed user_id project_id r).
  { intros r. unfold hit, project_keyed. simpl.
    rewrite andb_true_r. reflexivity. }
  rewrite (filter_ext_eq _ _ rows Hk).
  rewrite (map_ext _ (fun r => if project_keyed user_id project_id r
                               then <[j := v]> r else r))
    by (intros r; rewrite Hk; reflexivity).
  destruct (bool_decide (List.filter _ rows = [])); [reflexivity|].
  destruct (col_not_null cdef && is_null v); reflexivity.
Qed.

(** The position of each allowed column, with its definition. *)
Lemma allowed_columns (param : string) :
  In param ["project_name"; "description"; "url"; "status_id"] ->
  param ∈ allowed
  /\ exists j cdef,
       col_index projects_def param = Some j
       /\ td_columns projects_def !! j = Some cdef
       /\ col_unique cdef || col_primary_key cdef = false.
Proof.
  unfold allowed. rewrite !elem_of_union, !elem_of_singleton. simpl.
  intros [<-|[<-|[<-|[<-|[]]]]]; (split; [tauto|]).
  - exists 2%nat. eexists. repeat split; reflexivity.
  - exists 3%nat. eexists. repeat split; reflexivity.
  - exists 4%nat. eexists. repeat split; reflexivity.
  - exists 5%nat. eexists. repeat split; reflexivity.
Qed.

Lemma filter_nil_existsb {A} (p : A -> bool) (l : list A) :
  bool_decide (List.filter p l = []) = negb (existsb p l).
Proof.
  induction l as [|a l IH]; simpl; [reflexivity|].
  destruct (p a); simpl; [reflexivity|exact IH].
Qed.

Lemma map_unhit {A} (p : A -> bool) (f : A -> A) (l : list A) :
  existsb p l = false -> map (fun a => if p a then f a else a) l = l.
Proof.
  induction l as [|a l IH]; simpl; [reflexivity|].
  destruct (p a); simpl; [discriminate|]. intros Hl. rewrite (IH Hl).
  reflexivity.
Qed.

(** The position of each allowed column; only [project_name] is NOT NULL. *)
Lemma allowed_columns_not_null (param : string) :
  In param ["project_name"; "description"; "url"; "status_id"] ->
  param ∈ allowed
  /\ exists j cdef,
       col_index projects_def param = Some j
       /\ td_columns projects_def !! j = Some cdef
       /\ col_unique cdef || col_primary_key cdef = false
       /\ col_not_null cdef = bool_decide (param = "project_name").
Proof.
  unfold allowed. rewrite !elem_of_union, !elem_of_singleton. simpl.
  intros [<-|[<-|[<-|[<-|[]]]]]; (split; [tauto|]).
  - exists 2%nat. eexists. repeat split; reflexivity.
  - exists 3%nat. eexists. repeat split; reflexivity.
  - exists 4%nat. eexists. repeat split; reflexivity.
  - exists 5%nat. eexists. repeat split; reflexivity.
Qed.

(** The whole outcome of [update_projects] for an allowed column: refused
    with an [IntegrityError] and nothing written when a row is keyed and the
    column is [project_name] and the value [None]; else the value written
    into the column of every keyed row. *)
Lemma update_projects_result (rows : list row) (param : string) (j : nat)
    (cdef : column) (v user_id project_id : value) :
  d !! "projects" = Some (Table projects_def rows) ->
  param ∈ allowed ->
  col_index projects_def param = Some j ->
  td_columns projects_def !! j = Some cdef ->
  col_unique cdef || col_primary_key cdef = false ->
  col_not_null cdef = bool_decide (param = "project_name") ->
  update_projects param [v; user_id; project_id] d
  = (if update_refused rows param v user_id project_id
     then inl (IntegrityError
                 "NOT NULL constraint failed: projects.project_name")
     else inr tt,
     <["projects" :=
         Table projects_def
           (if update_refused rows param v user_id project_id then rows
            else map (fun r => if project_keyed user_id project_id r
                               then <[j := v]> r else r) rows)]> d).
Proof.
  intros Hd Hin Hj Hc Hu Hnn.
  assert (Hgc : get_col projects_def param = inr j)
    by (unfold get_col; rewrite Hj; reflexivity).
  rewrite (update_projects_rows rows param j cdef v user_id project_id
             Hd Hin Hgc Hc Hu).
  unfold update_refused. rewrite filter_nil_existsb, Hnn.
  destruct (existsb (project_keyed user_id project_id) rows) eqn:Hex; simpl.
  - destruct (bool_decide (param = "project_name")) eqn:Hp; simpl.
    + apply bool_decide_eq_true_1 in Hp. subst param.
      destruct (is_null v); [|reflexivity].
      rewrite (insert_id d "projects" _ Hd). reflexivity.
    + reflexivity.
  - rewrite (map_unhit _ _ rows Hex), (insert_id d "projects" _ Hd).
    reflexivity.
Qed.

(** C5. For an allowed column and a tuple [(new_value, user_id, project_id)]
    whose values are of the class of their columns, [update_projects] raises
    an [IntegrityError] and writes nothing when a row is keyed by
    [(user_id, project_id)] and the column is [project_name] and the value
    [None]; in every other case it returns normally and writes [new_value]
    into the named column of each keyed row.  Every table but projects is
    as it was, the project rows keep their number and order, a row that is
    not keyed is as it was, and in a keyed row no column but the named one
    changes.  With project ids distinct, as the primary key keeps them, at
    most one row is keyed by the pair. *)
Theorem update_projects_frame (rows : list row) (param : string)
    (new_value user_id project_id : value) :
  d !! "projects" = Some (Table projects_def rows) ->
  In param ["project_name"; "description"; "url"; "status_id"] ->
  column_arg param new_value ->
  integer_arg user_id ->
  integer_arg project_id ->
  exists (d' : database) (rows' : list row) (j : nat),
    update_projects param [new_value; user_id; project_id] d
    = (if update_refused rows param new_value user_id project_id
       then inl (IntegrityError
                   "NOT NULL constraint failed: projects.project_name")
       else inr tt, d')
    /\ col_index projects_def param = Some j
    /\ (forall t, t ≠ "projects" -> d' !! t = d !! t)
    /\ d' !! "projects" = Some (Table projects_def rows')
    /\ length rows' = length rows
    /\ (forall i r r',
          rows !! i = Some r -> rows' !! i = Some r' ->
          (project_keyed user_id project_id r = false -> r' = r)
          /\ (forall k, k ≠ j -> r' !! k = r !! k)
          /\ length r' = length r
          /\ (update_refused rows param new_value user_id project_id = false ->
              project_keyed user_id project_id r = true ->
              r' = <[j := new_value]> r)
          /\ (update_refused rows param new_value user_id project_id = true ->
              r' = r))
    /\ (NoDup (map (field 0) rows) ->
        forall i1 i2 r1 r2,
          rows !! i1 = Some r1 -> rows !! i2 = Some r2 ->
          project_keyed user_id project_id r1 = true ->
          project_keyed user_id project_id r2 = true ->
          i1 = i2).
Proof.
  intros Hd Hparam _ _ _.
  destruct (allowed_columns_not_null param Hparam)
    as (Hin & j & cdef & Hj & Hc & Hu & Hnn).
  pose proof (update_projects_result rows param j cdef new_value user_id
                project_id Hd Hin Hj Hc Hu Hnn) as Hup.
  assert (Hone : NoDup (map (field 0) rows) ->
                 forall i1 i2 r1 r2,
                   rows !! i1 = Some r1 -> rows !! i2 = Some r2 ->
                   project_keyed user_id project_id r1 = true ->
                   project_keyed user_id project_id r2 = true ->
                   i1 = i2).
  { intros Hnd i1 i2 r1 r2 H1 H2 K1 K2.
    unfold project_keyed in K1, K2.
    apply andb_true_iff in K1 as [_ K1]. apply andb_true_iff in K2 as [_ K2].
    apply sql_eq_true in K1, K2.
    change (map (field 0) rows) with (field 0 <$> rows) in Hnd.
    apply (NoDup_lookup _ i1 i2 project_id Hnd);
      rewrite list_lookup_fmap; [rewrite H1|rewrite H2]; simpl; congruence. }
  eexists _, _, j. split; [exact Hup|]. split; [exact Hj|].
  split; [intros t Ht; apply lookup_insert_ne; congruence|].
  split; [apply lookup_insert_eq|].
  destruct (update_refused rows param new_value user_id project_id).
  - split; [reflexivity|]. split; [|exact Hone].
    intros i r r' Hr Hr'. rewrite Hr in Hr'. injection Hr' as <-.
    repeat split; auto. discriminate.
  - split; [apply length_map|]. split; [|exact Hone].
    intros i r r' Hr Hr'.
    change (map ?f rows) with (f <$> rows) in Hr'.
    rewrite list_lookup_fmap, Hr in Hr'. simpl in Hr'. injection Hr' as <-.
    destruct (project_keyed user_id project_id r) eqn:Hk.
    + split; [discriminate|].
      split; [intros k Hkj; apply list_lookup_insert_ne; congruence|].
      split; [apply length_insert|]. split; [reflexivity|discriminate].
    + repeat split; auto; discriminate.
Qed.

End Update.

(** ** The skills of a project *)

Section ProjectSkills.
Import DB_Manager.
Variable d : database.
Variables projects links all_skills : list row.
Hypothesis projects_stored :
  d !! "projects" = Some (Table projects_def projects).
Hypothesis links_stored :
  d !! "project_skills" = Some (Table project_skills_def links).
Hypothesis skills_stored : d !! "skills" = Some (Table skills_def all_skills).

Lemma sql_project_skills_rows (project_name : value) :
  sql_project_skills [project_name] d
  = inr (map (fun jr => [cell (2, 1)%nat jr])
             (joined projects links all_skills project_name)).
Proof.
  unfold sql_project_skills, scan, join, get_table.
  rewrite projects_stored. simpl.
  rewrite links_stored. simpl.
  rewrite skills_stored. reflexivity.
Qed.

Lemma joined_In (project_name : value) (jr : list row) :
  In jr (joined projects links all_skills project_name) <->
  exists p l s,
    jr = [p; l; s] /\ In p projects /\ In l links /\ In s all_skills
    /\ sql_eq (field 0 p) (field 0 l) = true
    /\ sql_eq (field 0 s) (field 1 l) = true
    /\ sql_eq (field 2 p) project_name = true.
Proof.
  unfold joined. rewrite filter_In, in_flat_map. split.
  - intros [(jr2 & Hjr2 & Hjr) Hname].
    apply in_flat_map in Hjr2 as (jr1 & Hjr1 & Hjr2).
    apply in_map_iff in Hjr1 as (p & <- & Hp).
    apply filter_In in Hjr2 as [Hjr2 Hon1].
    apply in_map_iff in Hjr2 as (l & <- & Hl).
    apply filter_In in Hjr as [Hjr Hon2].
    apply in_map_iff in Hjr as (s & <- & Hs).
    exists p, l, s. simpl in *. rewrite andb_true_r in Hname.
    repeat split; assumption.
  - intros (p & l & s & -> & Hp & Hl & Hs & Hon1 & Hon2 & Hname). split.
    + exists [p; l]. split.
      * apply in_flat_map. exists [p]. split.
        -- apply in_map_iff. eauto.
        -- apply filter_In. split; [|exact Hon1].
           apply in_map_iff. exists l. auto.
      * apply filter_In. split; [|exact Hon2].
        apply in_map_iff. exists s. auto.
    + simpl. rewrite andb_true_r. exact Hname.
Qed.

(** C10. For a name, a str or [None], that no stored project bears, or whose
    projects have no row in project_skills, [get_project_skills] returns the
    empty string and raises nothing. *)
Theorem get_project_skills_empty (project_name : value) :
  text_arg project_name ->
  (forall p, In p projects -> sql_eq (field 2 p) project_name = false)
  \/ (forall p l, In p projects -> sql_eq (field 2 p) project_name = true ->
                  In l links -> sql_eq (field 0 p) (field 0 l) = false) ->
  get_project_skills project_name d = (inr "", d).
Proof.
  intros _ Hnone.
  assert (Hj : joined projects links all_skills project_name = []).
  { destruct (joined projects links all_skills project_name) as [|jr rest]
      eqn:Hjr; [reflexivity|].
    exfalso.
    assert (Hin : In jr (joined projects links all_skills project_name))
      by (rewrite Hjr; left; reflexivity).
    apply joined_In in Hin
      as (p & l & s & _ & Hp & Hl & _ & Hon1 & _ & Hname).
    destruct Hnone as [Hnone|Hnone].
    - rewrite (Hnone p Hp) in Hname. discriminate.
    - rewrite (Hnone p l Hp Hname Hl) in Hon1. discriminate. }
  unfold get_project_skills, __select_data, mbind'.
  rewrite sql_project_skills_rows, Hj. reflexivity.
Qed.

End ProjectSkills.

(** ** Inserting *)

Lemma max_rowid_ge (i : nat) (rows : list row) (r : row) (n : Z) :
  In r rows -> field i r = VInt n ->
  exists k, max_rowid i rows = Some k /\ n <= k.
Proof.
  induction rows as [|r' rows IH]; simpl; [intros []|].
  intros [->|Hin] Hn.
  - rewrite Hn. destruct (max_rowid i rows) as [k|].
    + exists (Z.max n k). split; [reflexivity|lia].
    + exists n. split; [reflexivity|lia].
  - destruct (IH Hin Hn) as (k & -> & Hk).
    destruct (field i r') as [|m|s].
    + eauto.
    + exists (Z.max m k). split; [reflexivity|lia].
    + eauto.
Qed.

(** The rowid an insert assigns is held by no stored row. *)
Lemma next_rowid_fresh (i : nat) (rows : list row) :
  existsb (fun r => sql_eq (field i r) (VInt (next_rowid i rows))) rows = false.
Proof.
  apply not_true_is_false. intros Hex.
  apply existsb_exists in Hex as (r & Hin & Heq).
  apply sql_eq_true in Heq.
  destruct (max_rowid_ge i rows r _ Hin Heq) as (k & Hk & Hle).
  unfold next_rowid in Hle. rewrite Hk in Hle. lia.
Qed.

(** Into such a table [INSERT OR IGNORE ... (namec) VALUES (?)] ignores
    nothing: the row is appended under the next rowid, whatever is stored. *)
Lemma sql_insert_keyed (or_ignore : bool) (t idc namec : string) (v : value)
    (d : database) (rows : list row) :
  idc ≠ namec ->
  d !! t = Some (Table (keyed_def idc namec) rows) ->
  sql_insert or_ignore t [namec] [v] d
  = inr (<[t := Table (keyed_def idc namec)
                  (rows ++ [[VInt (next_rowid 0 rows); v]])]> d).
Proof.
  intros Hne Hd. unfold sql_insert, get_table. rewrite Hd. simpl.
  unfold get_col, col_index. simpl.
  rewrite (bool_decide_eq_false_2 (idc = namec)) by exact Hne.
  rewrite (bool_decide_eq_true_2 (namec = namec)) by reflexivity. simpl.
  assert (Hrow : new_row (keyed_def idc namec) rows [(namec, v)]
                 = [VInt (next_rowid 0 rows); v]).
  { unfold new_row. simpl.
    rewrite (bool_decide_eq_false_2 (namec = idc)) by congruence.
    rewrite (bool_decide_eq_true_2 (namec = namec)) by reflexivity.
    destruct v; reflexivity. }
  rewrite Hrow. unfold constraint_failure. simpl.
  unfold field at 2. simpl.
  rewrite next_rowid_fresh. reflexivity.
Qed.

(** [executemany] of that INSERT over a list of 1-tuples appends one row for
    each tuple, in order. *)
Lemma seed_appends (or_ignore : bool) (t idc namec : string) (vs : list value) :
  idc ≠ namec ->
  forall (d : database) (rows : list row),
    d !! t = Some (Table (keyed_def idc namec) rows) ->
    exists news,
      rfold (sql_insert or_ignore t [namec]) (map (fun v => [v]) vs) d
      = inr (<[t := Table (keyed_def idc namec) (rows ++ news)]> d)
      /\ map (field 1) news = vs.
Proof.
  intros Hne. induction vs as [|v vs IH]; intros d rows Hd; simpl.
  - exists []. split; [|reflexivity].
    rewrite app_nil_r, (insert_id d t _ Hd). reflexivity.
  - rewrite (sql_insert_keyed or_ignore t idc namec v d rows Hne Hd). simpl.
    destruct (IH (<[t := Table (keyed_def idc namec)
                           (rows ++ [[VInt (next_rowid 0 rows); v]])]> d)
                 (rows ++ [[VInt (next_rowid 0 rows); v]]))
      as (news & Hrun & Hnames); [apply lookup_insert_eq|].
    exists ([VInt (next_rowid 0 rows); v] :: news). split.
    + rewrite Hrun, insert_insert_eq, <- app_assoc. reflexivity.
    + simpl. rewrite Hnames. reflexivity.
Qed.

Section Seeding.
Import DB_Manager.

Lemma select_star_keyed (t idc namec : string) (d : database)
    (rows : list row) :
  idc ≠ namec ->
  d !! t = Some (Table (keyed_def idc namec) rows) ->
  sql_select_star t [] d = inr (map (fun r => [field 0 r; field 1 r]) rows).
Proof.
  intros Hne Hd. unfold sql_select_star, get_table. rewrite Hd. simpl.
  rewrite (sql_select_rows t (keyed_def idc namec) [idc; namec] []
                           [0%nat; 1%nat] [] [] d rows Hd); try reflexivity.
  - simpl. rewrite filter_all by reflexivity. reflexivity.
  - unfold get_col, col_index. simpl.
    rewrite (bool_decide_eq_true_2 (idc = idc)) by reflexivity.
    rewrite (bool_decide_eq_false_2 (idc = namec)) by exact Hne.
    rewrite (bool_decide_eq_true_2 (namec = namec)) by reflexivity.
    reflexivity.
Qed.

(** Whatever skills and status already hold, [default_insert] adds the four
    skill names and the five status names once more, after the stored rows;
    no call leaves the two tables as it found them. *)
Lemma default_insert_appends (d : database) (rs rt : list row) :
  d !! "skills" = Some (Table skills_def rs) ->
  d !! "status" = Some (Table status_def rt) ->
  exists (d' : database) (ns nt : list row),
    default_insert d = (inr tt, d')
    /\ get_skills d'
       = (inr (map (fun r => [field 0 r; field 1 r]) (rs ++ ns)), d')
    /\ get_statuses d'
       = (inr (map (fun r => [field 0 r; field 1 r]) (rt ++ nt)), d')
    /\ map (field 1) ns = map VText ["Python"; "SQL"; "API"; "Discord"]
    /\ map (field 1) nt
       = map VText ["Pembuatan Prototipe"; "Dalam Pengembangan";
                    "Selesai, siap digunakan"; "Diperbarui";
                    "Selesai, tapi tidak sedang dilanjutkan"]
    /\ (forall t, t ≠ "skills" -> t ≠ "status" -> d' !! t = d !! t).
Proof.
  intros Hs Ht.
  destruct (seed_appends true "skills" "skill_id" "skill_name"
              (map VText ["Python"; "SQL"; "API"; "Discord"])
              ltac:(discriminate) d rs Hs) as (ns & Hrun1 & Hns).
  set (d1 := <["skills" := Table (keyed_def "skill_id" "skill_name")
                                  (rs ++ ns)]> d) in *.
  assert (Ht1 : d1 !! "status" = Some (Table status_def rt)).
  { unfold d1. rewrite lookup_insert_ne by discriminate. exact Ht. }
  destruct (seed_appends true "status" "status_id" "status_name"
              (map VText ["Pembuatan Prototipe"; "Dalam Pengembangan";
                          "Selesai, siap digunakan"; "Diperbarui";
                          "Selesai, tapi tidak sedang dilanjutkan"])
              ltac:(discriminate) d1 rt Ht1) as (nt & Hrun2 & Hnt).
  set (d2 := <["status" := Table (keyed_def "status_id" "status_name")
                                  (rt ++ nt)]> d1) in *.
  exists d2, ns, nt.
  assert (Hs2 : d2 !! "skills" = Some (Table skills_def (rs ++ ns))).
  { unfold d2, d1. rewrite lookup_insert_ne by discriminate.
    apply lookup_insert_eq. }
  assert (Ht2 : d2 !! "status" = Some (Table status_def (rt ++ nt))).
  { unfold d2. apply lookup_insert_eq. }
  split; [|split; [|split; [|split; [exact Hns|split; [exact Hnt|]]]]].
  - unfold default_insert, mbind', __executemany.
    change skills with (map (fun v => [v])
                            (map VText ["Python"; "SQL"; "API"; "Discord"])).
    rewrite Hrun1.
    change statuses
      with (map (fun v => [v])
                (map VText ["Pembuatan Prototipe"; "Dalam Pengembangan";
                            "Selesai, siap digunakan"; "Diperbarui";
                            "Selesai, tapi tidak sedang dilanjutkan"])).
    fold d1. rewrite Hrun2. reflexivity.
  - unfold get_skills, __select_data.
    rewrite (select_star_keyed "skills" "skill_id" "skill_name" d2 (rs ++ ns))
      by (discriminate || exact Hs2).
    reflexivity.
  - unfold get_statuses, __select_data.
    rewrite (sql_select_rows "status" status_def _ _ [0%nat; 1%nat] []
                             [] d2 (rt ++ nt) Ht2) by reflexivity.
    simpl. rewrite filter_all by reflexivity. reflexivity.
  - intros t Hts Htt. unfold d2, d1.
    rewrite !lookup_insert_ne by congruence. reflexivity.
Qed.

End Seeding.

(** ** Linking a skill to a project *)

Lemma rmap_item0 {A} (f : A -> value) (l : list A) :
  rmap (item 0) (map (fun a => [f a]) l) = inr (map f l).
Proof.
  induction l as [|a l IH]; simpl; [reflexivity|].
  rewrite IH. reflexivity.
Qed.

Lemma expect_str_all (l : list value) :
  (forall v, In v l -> exists str, v = VText str) ->
  exists strs, rmap expect_str l = inr strs /\ map VText strs = l.
Proof.
  induction l as [|v l IH]; intros Hall.
  - exists []. split; reflexivity.
  - destruct (Hall v) as [str ->]; [left; reflexivity|].
    destruct IH as (strs & Hrun & Hmap);
      [intros w Hw; apply Hall; right; exact Hw|].
    exists (str :: strs). simpl. rewrite Hrun, Hmap. split; reflexivity.
Qed.

(** Into project_skills, which declares neither key nor UNIQUE, the
    [INSERT OR IGNORE] of [insert_skill] ignores nothing. *)
Lemma sql_insert_link (or_ignore : bool) (a b : value) (d : database)
    (links : list row) :
  d !! "project_skills" = Some (Table DB_Manager.project_skills_def links) ->
  sql_insert or_ignore "project_skills" ["project_id"; "skill_id"] [a; b] d
  = inr (<["project_skills" :=
             Table DB_Manager.project_skills_def (links ++ [[a; b]])]> d).
Proof.
  intros Hd. unfold sql_insert, get_table. rewrite Hd.
  assert (Hrow : new_row DB_Manager.project_skills_def links
                         [("project_id", a); ("skill_id", b)] = [a; b])
    by (destruct a, b; reflexivity).
  simpl. rewrite Hrow. reflexivity.
Qed.

Section InsertSkill.
Import DB_Manager.
Variable d : database.
Variables projects links all_skills : list row.
Hypothesis projects_stored :
  d !! "projects" = Some (Table projects_def projects).
Hypothesis links_stored :
  d !! "project_skills" = Some (Table project_skills_def links).
Hypothesis skills_stored : d !! "skills" = Some (Table skills_def all_skills).

Lemma select_skill_id (skill : value) :
  sql_select ["skill_id"] "skills" ["skill_name"] [skill] d
  = inr (map (fun r => [field 0 r])
             (List.filter (skill_named skill) all_skills)).
Proof.
  rewrite (sql_select_rows "skills" skills_def _ _ [0%nat] [1%nat] _ _
                           all_skills skills_stored) by reflexivity.
  f_equal. f_equal. apply filter_ext_eq. intros r.
  unfold hit, skill_named. simpl. apply andb_true_r.
Qed.

(** [insert_skill] for a stored project and a stored skill: the pair of the
    first project and the first skill that match is appended to
    project_skills, whether or not the pair is stored already. *)
Lemma insert_skill_appends (user_id project_name skill : value)
    (pre post spre spost : list row) (p s : row) :
  projects = pre ++ p :: post ->
  (forall r, In r pre -> project_named project_name user_id r = false) ->
  project_named project_name user_id p = true ->
  all_skills = spre ++ s :: spost ->
  (forall r, In r spre -> skill_named skill r = false) ->
  skill_named skill s = true ->
  insert_skill user_id project_name skill d
  = (inr tt,
     <["project_skills" :=
         Table project_skills_def (links ++ [[field 0 p; field 0 s]])]> d).
Proof.
  intros Hps Hpre Hp Hss Hspre Hs.
  unfold insert_skill, __select_data, mbind'.
  rewrite (select_project_id d projects project_name user_id projects_stored).
  rewrite Hps, (filter_first _ pre post p Hpre Hp). simpl.
  rewrite (select_skill_id skill).
  rewrite Hss, (filter_first _ spre spost s Hspre Hs). simpl.
  unfold __executemany, rfold.
  rewrite (sql_insert_link true _ _ d links links_stored). reflexivity.
Qed.

(** [get_project_skills] names every skill linked to a project of the name,
    as long as the stored skill names are strings. *)
Lemma get_project_skills_includes (project_name : value) (p l s : row)
    (str : string) :
  (forall r, In r all_skills -> exists n, field 1 r = VText n) ->
  In p projects -> In l links -> In s all_skills ->
  sql_eq (field 0 p) (field 0 l) = true ->
  sql_eq (field 0 s) (field 1 l) = true ->
  sql_eq (field 2 p) project_name = true ->
  field 1 s = VText str ->
  exists names,
    get_project_skills project_name d = (inr (String.concat ", " names), d)
    /\ In str names.
Proof.
  intros Htext Hp Hl Hs Hon1 Hon2 Hname Hstr.
  unfold get_project_skills, __select_data, mbind', lift.
  rewrite (sql_project_skills_rows d projects links all_skills
             projects_stored links_stored skills_stored).
  rewrite rmap_item0.
  destruct (expect_str_all
              (map (cell (2, 1)%nat)
                   (joined projects links all_skills project_name)))
    as (names & Hrun & Hmap).
  { intros v Hv. apply in_map_iff in Hv as (jr & <- & Hjr).
    apply joined_In in Hjr as (p' & l' & s' & -> & _ & _ & Hs' & _).
    exact (Htext s' Hs'). }
  exists names. unfold str_join. rewrite Hrun. split; [reflexivity|].
  assert (Hin : In (VText str)
                   (map (cell (2, 1)%nat)
                        (joined projects links all_skills project_name))).
  { apply in_map_iff. exists [p; l; s]. split; [exact Hstr|].
    apply joined_In. exists p, l, s. repeat split; assumption. }
  rewrite <- Hmap in Hin. apply in_map_iff in Hin as (n & [= ->] & Hn).
  exact Hn.
Qed.

End InsertSkill.

(** After [insert_skill] for a stored project and a stored skill, both under
    integer ids, [get_project_skills] of the project name returns a
    comma-joined string with the skill among the joined names. *)
Lemma insert_skill_then_get_project_skills (d : database)
    (projects links all_skills pre post spre spost : list row) (p s : row)
    (user_id project_name : value) (str : string) (pid sid : Z) :
  d !! "projects" = Some (Table DB_Manager.projects_def projects) ->
  d !! "project_skills" = Some (Table DB_Manager.project_skills_def links) ->
  d !! "skills" = Some (Table DB_Manager.skills_def all_skills) ->
  (forall r, In r all_skills -> exists n, field 1 r = VText n) ->
  projects = pre ++ p :: post ->
  (forall r, In r pre -> project_named project_name user_id r = false) ->
  project_named project_name user_id p = true ->
  field 0 p = VInt pid ->
  all_skills = spre ++ s :: spost ->
  (forall r, In r spre -> skill_named (VText str) r = false) ->
  skill_named (VText str) s = true ->
  field 0 s = VInt sid ->
  exists d' names,
    DB_Manager.insert_skill user_id project_name (VText str) d = (inr tt, d')
    /\ DB_Manager.get_project_skills project_name d'
       = (inr (String.concat ", " names), d')
    /\ In str names.
Proof.
  intros Hdp Hdl Hds Htext Hps Hpre Hp Hpid Hss Hspre Hs Hsid.
  eexists.
  rewrite (insert_skill_appends d projects links all_skills Hdp Hdl Hds
             user_id project_name (VText str) pre post spre spost p s
             Hps Hpre Hp Hss Hspre Hs).
  destruct (get_project_skills_includes
              (<["project_skills" :=
                   Table DB_Manager.project_skills_def
                         (links ++ [[field 0 p; field 0 s]])]> d)
              projects (links ++ [[field 0 p; field 0 s]]) all_skills)
    with (project_name := project_name) (p := p) (s := s) (str := str)
         (l := [field 0 p; field 0 s])
    as (names & Hget & Hin).
  - rewrite lookup_insert_ne by discriminate. exact Hdp.
  - apply lookup_insert_eq.
  - rewrite lookup_insert_ne by discriminate. exact Hds.
  - exact Htext.
  - rewrite Hps. apply in_or_app. right. left. reflexivity.
  - apply in_or_app. right. left. reflexivity.
  - rewrite Hss. apply in_or_app. right. left. reflexivity.
  - rewrite Hpid. simpl. apply bool_decide_eq_true_2. reflexivity.
  - rewrite Hsid. simpl. apply bool_decide_eq_true_2. reflexivity.
  - unfold project_named in Hp. apply andb_true_iff in Hp as [Hp _]. exact Hp.
  - unfold skill_named in Hs. apply sql_eq_true in Hs. exact Hs.
  - exists names. split; [reflexivity|]. split; assumption.
Qed.

(** ** Creating the tables *)

Lemma conn_execute_if_not_exists (name : string) (def : table_def)
    (c : connection) :
  conn_execute (CreateTable true name def) c
  = (inr tt,
     Connection (foreign_keys c) (create_if_absent name def (conn_db c))
                (conn_trace c ++ [(CreateTable true name def, foreign_keys c)])).
Proof.
  unfold conn_execute, create_if_absent.
  destruct (conn_db c !! name); reflexivity.
Qed.

Lemma create_if_absent_present (name : string) (def : table_def)
    (d : database) :
  is_Some (d !! name) -> create_if_absent name def d = d.
Proof. unfold create_if_absent. intros [tb ->]. reflexivity. Qed.

Lemma create_if_absent_lookup (name other : string) (def : table_def)
    (d : database) :
  (name = other \/ is_Some (d !! other)) ->
  is_Some (create_if_absent name def d !! other).
Proof.
  unfold create_if_absent. intros [<-|Hother].
  - destruct (d !! name) as [tb|] eqn:Hd.
    + rewrite Hd. eauto.
    + rewrite lookup_insert_eq. eauto.
  - destruct (d !! name) as [tb|] eqn:Hd; [exact Hother|].
    destruct (decide (name = other)) as [<-|Hne].
    + rewrite lookup_insert_eq. eauto.
    + rewrite lookup_insert_ne by exact Hne. exact Hother.
Qed.

Lemma DatabaseManager_create_tables_run (d : database) :
  run_connection DatabaseManager.create_tables_body d
  = (inr tt,
     Connection true (DatabaseManager_created d)
       [ (PragmaForeignKeysOn, false);
         (DatabaseManager.sql_users, true);
         (DatabaseManager.sql_status, true);
         (DatabaseManager.sql_projects, true) ]).
Proof.
  unfold run_connection, DatabaseManager.create_tables_body, mbind'.
  unfold DatabaseManager.sql_users, DatabaseManager.sql_status,
    DatabaseManager.sql_projects.
  change (conn_execute PragmaForeignKeysOn (connect d))
    with (inr tt : result unit, Connection true d [(PragmaForeignKeysOn, false)]).
  cbv iota. rewrite conn_execute_if_not_exists. cbv iota.
  rewrite conn_execute_if_not_exists. cbv iota.
  rewrite conn_execute_if_not_exists. reflexivity.
Qed.

Lemma DatabaseManager_created_fixed (d : database) :
  DatabaseManager_created (DatabaseManager_created d)
  = DatabaseManager_created d.
Proof.
  set (d1 := DatabaseManager_created d).
  assert (Hu : is_Some (d1 !! "users")).
  { unfold d1, DatabaseManager_created.
    do 2 (apply create_if_absent_lookup; right).
    apply create_if_absent_lookup. left. reflexivity. }
  assert (Hs : is_Some (d1 !! "status")).
  { unfold d1, DatabaseManager_created.
    apply create_if_absent_lookup; right.
    apply create_if_absent_lookup. left. reflexivity. }
  assert (Hp : is_Some (d1 !! "projects")).
  { unfold d1, DatabaseManager_created.
    apply create_if_absent_lookup. left. reflexivity. }
  unfold DatabaseManager_created at 1.
  rewrite (create_if_absent_present "users") by exact Hu.
  rewrite (create_if_absent_present "status") by exact Hs.
  rewrite (create_if_absent_present "projects") by exact Hp.
  reflexivity.
Qed.

(** The plain [CREATE TABLE] statements of [DB_Manager]: the first one is
    always reached, the connection never leaves its default enforcement, and
    the projects table is there afterwards however the call ended. *)
Lemma DB_Manager_create_tables_run (d : database) :
  exists (res : result unit) (d' : database) (rest : list (statement * bool)),
    run_connection DB_Manager.create_tables_body d
    = (res, Connection false d'
              ((CreateTable false "projects" DB_Manager.projects_def, false)
                 :: rest))
    /\ forallb (fun e : statement * bool => is_ddl e.1 && negb e.2) rest = true
    /\ is_Some (d' !! "projects")
    /\ (is_Some (d !! "projects") ->
        res = inl (OperationalError "table projects already exists") /\ d' = d).
Proof.
  unfold run_connection, DB_Manager.create_tables_body, mbind', conn_execute,
    connect. simpl.
  destruct (d !! "projects") as [tp|] eqn:Hp; simpl.
  { do 3 eexists. split; [reflexivity|]. rewrite Hp. eauto. }
  rewrite lookup_insert_ne by discriminate.
  destruct (d !! "skills") as [ts|] eqn:Hs; simpl.
  { do 3 eexists. split; [reflexivity|]. rewrite lookup_insert_eq.
    repeat split; eauto; absurd_projects. }
  rewrite !lookup_insert_ne by discriminate.
  destruct (d !! "project_skills") as [tl|] eqn:Hl; simpl.
  { do 3 eexists. split; [reflexivity|].
    rewrite lookup_insert_ne, lookup_insert_eq by discriminate.
    repeat split; eauto; absurd_projects. }
  rewrite !lookup_insert_ne by discriminate.
  destruct (d !! "status") as [tt'|] eqn:Ht; simpl.
  - do 3 eexists. split; [reflexivity|].
    rewrite !lookup_insert_ne, lookup_insert_eq by discriminate.
    repeat split; eauto; absurd_projects.
  - do 3 eexists. split; [reflexivity|].
    rewrite !lookup_insert_ne, lookup_insert_eq by discriminate.
    repeat split; eauto; absurd_projects.
Qed.

(** C2. [DatabaseManager.create_tables] succeeds on every database and a
    second call succeeds again and leaves the tables of the first.
    [DB_Manager.create_tables] does not: after any first call, and so after
    the successful one on an empty file, a second call raises
    [OperationalError("table projects already exists")]. *)
Theorem create_tables_twice (d : database) :
  (DatabaseManager.create_tables d = (inr tt, DatabaseManager_created d)
   /\ DatabaseManager.create_tables (DatabaseManager_created d)
      = (inr tt, DatabaseManager_created d))
  /\ DB_Manager.create_tables ∅ = (inr tt, created)
  /\ DB_Manager.create_tables (DB_Manager.create_tables d).2
     = (inl (OperationalError "table projects already exists"),
        (DB_Manager.create_tables d).2).
Proof.
  split; [split|split].
  - unfold DatabaseManager.create_tables, with_connection.
    rewrite DatabaseManager_create_tables_run. reflexivity.
  - unfold DatabaseManager.create_tables, with_connection.
    rewrite DatabaseManager_create_tables_run, DatabaseManager_created_fixed.
    reflexivity.
  - vm_compute. reflexivity.
  - unfold DB_Manager.create_tables, with_connection.
    destruct (DB_Manager_create_tables_run d)
      as (res & d' & rest & -> & _ & Hp & _).
    simpl.
    destruct (DB_Manager_create_tables_run d')
      as (res2 & d2 & rest2 & -> & _ & _ & Hagain).
    destruct (Hagain Hp) as [-> ->]. reflexivity.
Qed.

(** C9. [DatabaseManager.create_tables] runs [PRAGMA foreign_keys = ON] first
    and every CREATE TABLE after it with enforcement on.
    [DB_Manager.create_tables] runs no PRAGMA: its first statement is the
    CREATE TABLE of projects, and that and every later statement of the call
    run with enforcement off. *)
Theorem create_tables_foreign_keys (d : database) :
  (conn_trace (run_connection DatabaseManager.create_tables_body d).2
   = [ (PragmaForeignKeysOn, false);
       (DatabaseManager.sql_users, true);
       (DatabaseManager.sql_status, true);
       (DatabaseManager.sql_projects, true) ]
   /\ forallb (fun e : statement * bool => implb (is_ddl e.1) e.2)
              (conn_trace (run_connection DatabaseManager.create_tables_body d).2)
      = true)
  /\ (exists rest,
        conn_trace (run_connection DB_Manager.create_tables_body d).2
        = (CreateTable false "projects" DB_Manager.projects_def, false) :: rest)
  /\ forallb (fun e : statement * bool => is_ddl e.1 && negb e.2)
             (conn_trace (run_connection DB_Manager.create_tables_body d).2)
     = true.
Proof.
  rewrite DatabaseManager_create_tables_run.
  destruct (DB_Manager_create_tables_run d)
    as (res & d' & rest & -> & Hall & _).
  simpl. repeat split; eauto.
Qed.

(** ** Seeding and linking, run on a new database *)

(** C1. On the tables [DB_Manager.create_tables] makes, one [default_insert]
    leaves exactly the four skills and the five statuses, and a second one
    stores each of them again: [get_skills] then has eight rows and
    [get_statuses] ten. *)
Theorem default_insert_twice :
  DB_Manager.default_insert created = (inr tt, seeded)
  /\ DB_Manager.get_skills seeded
     = (inr [ [VInt 1; VText "Python"]; [VInt 2; VText "SQL"];
              [VInt 3; VText "API"]; [VInt 4; VText "Discord"] ], seeded)
  /\ DB_Manager.get_statuses seeded
     = (inr [ [VInt 1; VText "Pembuatan Prototipe"];
              [VInt 2; VText "Dalam Pengembangan"];
              [VInt 3; VText "Selesai, siap digunakan"];
              [VInt 4; VText "Diperbarui"];
              [VInt 5; VText "Selesai, tapi tidak sedang dilanjutkan"] ],
        seeded)
  /\ DB_Manager.default_insert seeded = (inr tt, seeded_twice)
  /\ DB_Manager.get_skills seeded_twice
     = (inr [ [VInt 1; VText "Python"]; [VInt 2; VText "SQL"];
              [VInt 3; VText "API"]; [VInt 4; VText "Discord"];
              [VInt 5; VText "Python"]; [VInt 6; VText "SQL"];
              [VInt 7; VText "API"]; [VInt 8; VText "Discord"] ],
        seeded_twice)
  /\ DB_Manager.get_statuses seeded_twice
     = (inr [ [VInt 1; VText "Pembuatan Prototipe"];
              [VInt 2; VText "Dalam Pengembangan"];
              [VInt 3; VText "Selesai, siap digunakan"];
              [VInt 4; VText "Diperbarui"];
              [VInt 5; VText "Selesai, tapi tidak sedang dilanjutkan"];
              [VInt 6; VText "Pembuatan Prototipe"];
              [VInt 7; VText "Dalam Pengembangan"];
              [VInt 8; VText "Selesai, siap digunakan"];
              [VInt 9; VText "Diperbarui"];
              [VInt 10; VText "Selesai, tapi tidak sedang dilanjutkan"] ],
        seeded_twice).
Proof. repeat split; vm_compute; reflexivity. Qed.

(** C3. With the project "Bot" of user 7 stored and the skills seeded,
    [insert_skill(7, "Bot", "SQL")] links the two and [get_project_skills]
    then names the skill; the same call once more stores the same pair a
    second time, and [get_project_skills] names the skill twice. *)
Theorem insert_skill_twice :
  DB_Manager.insert_project
    [[VInt 7; VText "Bot"; VText "a catalog bot"; VText "http://bot"; VInt 1]]
    seeded = (inr tt, one_project)
  /\ DB_Manager.insert_skill (VInt 7) (VText "Bot") (VText "SQL") one_project
     = (inr tt, linked)
  /\ tbl_rows <$> linked !! "project_skills" = Some [[VInt 1; VInt 2]]
  /\ DB_Manager.get_project_skills (VText "Bot") linked = (inr "SQL", linked)
  /\ DB_Manager.insert_skill (VInt 7) (VText "Bot") (VText "SQL") linked
     = (inr tt, linked_twice)
  /\ tbl_rows <$> linked_twice !! "project_skills"
     = Some [[VInt 1; VInt 2]; [VInt 1; VInt 2]]
  /\ DB_Manager.get_project_skills (VText "Bot") linked_twice
     = (inr "SQL, SQL", linked_twice).
Proof. repeat split; vm_compute; reflexivity. Qed.

(** C6 fails for a second project of the same name and user: both are
    stored, under ids 1 and 2, and [get_project_id] answers 1. *)
Lemma get_project_id_second_project :
  DB_Manager.insert_project
    [[VInt 7; VText "Bot"; VText "first"; VNull; VInt 1];
     [VInt 7; VText "Bot"; VText "second"; VNull; VInt 2]]
    seeded = (inr tt, two_projects)
  /\ tbl_rows <$> two_projects !! "projects"
     = Some [ [VInt 1; VInt 7; VText "Bot"; VText "first"; VNull; VInt 1];
              [VInt 2; VInt 7; VText "Bot"; VText "second"; VNull; VInt 2] ]
  /\ DB_Manager.get_project_id (VText "Bot") (VInt 7) two_projects
     = (inr (VInt 1), two_projects)
  /\ DB_Manager.get_project_id (VText "Bot") (VInt 7) two_projects
     <> (inr (VInt 2), two_projects).
Proof.
  repeat split; try (vm_compute; reflexivity).
  vm_compute. discriminate.
Qed.

(** ** The theorems at stored data *)

Lemma second_project_projects :
  second_project !! "projects"
  = Some (Table DB_Manager.projects_def [bot_row; site_row]).
Proof. vm_compute. reflexivity. Defined.

Lemma second_project_links :
  second_project !! "project_skills"
  = Some (Table DB_Manager.project_skills_def [[VInt 1; VInt 2]]).
Proof. vm_compute. reflexivity. Defined.

Lemma second_project_skills :
  second_project !! "skills" = Some (Table DB_Manager.skills_def seeded_skills).
Proof. vm_compute. reflexivity. Defined.

Lemma second_project_status :
  second_project !! "status"
  = Some (Table DB_Manager.status_def seeded_statuses).
Proof. vm_compute. reflexivity. Defined.

Lemma update_projects_invalid_column_witness :
  ~ In "bad_col" ["project_name"; "description"; "url"; "status_id"]
  /\ DB_Manager.update_projects "bad_col" [VInt 3; VInt 7; VInt 1] second_project
     = (inl (ValueError "Invalid column"), second_project).
Proof.
  assert (H : ~ In "bad_col" ["project_name"; "description"; "url"; "status_id"]).
  { simpl. intros [H|[H|[H|[H|[]]]]]; discriminate H. }
  split; [exact H|].
  exact (update_projects_invalid_column second_project "bad_col"
           [VInt 3; VInt 7; VInt 1] H).
Defined.

Lemma get_status_id_never_raises_witness :
  second_project !! "status"
  = Some (Table DB_Manager.status_def seeded_statuses)
  /\ text_arg (VText "Diperbarui")
  /\ exists v : value,
       DB_Manager.get_status_id (VText "Diperbarui") second_project
       = (inr v, second_project)
       /\ ((exists r, In r seeded_statuses
                      /\ status_named (VText "Diperbarui") r = true) ->
           exists r, In r seeded_statuses
                     /\ status_named (VText "Diperbarui") r = true
                     /\ v = field 0 r)
       /\ ((forall r, In r seeded_statuses ->
                      status_named (VText "Diperbarui") r = false) ->
           v = VNull).
Proof.
  split; [exact second_project_status|]. split; [exact I|].
  exact (get_status_id_never_raises second_project seeded_statuses
           (VText "Diperbarui") second_project_status I).
Defined.

Lemma get_project_id_first_match_witness :
  second_project !! "projects"
  = Some (Table DB_Manager.projects_def [bot_row; site_row])
  /\ text_arg (VText "Site") /\ text_arg (VText "Shop")
  /\ integer_arg (VInt 7)
  /\ DB_Manager.get_project_id (VText "Site") (VInt 7) second_project
     = (inr (VInt 2), second_project)
  /\ DB_Manager.get_project_id (VText "Shop") (VInt 7) second_project
     = (inl (ValueError "Project not found"), second_project).
Proof.
  assert (H7 : integer_arg (VInt 7)) by of_class.
  split; [exact second_project_projects|].
  split; [exact I|]. split; [exact I|]. split; [exact H7|]. split.
  - apply (proj1 (get_project_id_first_match second_project
                    [bot_row; site_row] (VText "Site") (VInt 7)
                    second_project_projects I H7) [bot_row] site_row []).
    + reflexivity.
    + intros r' [<-|[]]. reflexivity.
    + reflexivity.
  - apply (proj2 (get_project_id_first_match second_project
                    [bot_row; site_row] (VText "Shop") (VInt 7)
                    second_project_projects I H7)).
    intros r [<-|[<-|[]]]; reflexivity.
Defined.

Lemma delete_project_absent_witness :
  second_project !! "projects"
  = Some (Table DB_Manager.projects_def [bot_row; site_row])
  /\ integer_arg (VInt 7) /\ integer_arg (VInt 3)
  /\ (forall r, In r [bot_row; site_row] ->
                project_keyed (VInt 7) (VInt 3) r = false)
  /\ DB_Manager.delete_project (VInt 7) (VInt 3) second_project
     = (inr tt, second_project).
Proof.
  assert (H : forall r, In r [bot_row; site_row] ->
                        project_keyed (VInt 7) (VInt 3) r = false).
  { intros r [<-|[<-|[]]]; reflexivity. }
  assert (H7 : integer_arg (VInt 7)) by of_class.
  assert (H3 : integer_arg (VInt 3)) by of_class.
  split; [exact second_project_projects|].
  split; [exact H7|]. split; [exact H3|]. split; [exact H|].
  exact (delete_project_absent second_project [bot_row; site_row]
           (VInt 7) (VInt 3) second_project_projects H7 H3 H).
Defined.

Lemma get_project_skills_empty_witness :
  second_project !! "projects"
  = Some (Table DB_Manager.projects_def [bot_row; site_row])
  /\ second_project !! "project_skills"
     = Some (Table DB_Manager.project_skills_def [[VInt 1; VInt 2]])
  /\ second_project !! "skills"
     = Some (Table DB_Manager.skills_def seeded_skills)
  /\ text_arg (VText "Site") /\ text_arg (VText "Shop")
  /\ (forall p l, In p [bot_row; site_row] ->
                  sql_eq (field 2 p) (VText "Site") = true ->
                  In l [[VInt 1; VInt 2]] ->
                  sql_eq (field 0 p) (field 0 l) = false)
  /\ DB_Manager.get_project_skills (VText "Site") second_project
     = (inr "", second_project)
  /\ DB_Manager.get_project_skills (VText "Shop") second_project
     = (inr "", second_project).
Proof.
  assert (H : forall p l, In p [bot_row; site_row] ->
                          sql_eq (field 2 p) (VText "Site") = true ->
                          In l [[VInt 1; VInt 2]] ->
                          sql_eq (field 0 p) (field 0 l) = false).
  { intros p l [<-|[<-|[]]] Hname [<-|[]]; [discriminate Hname|reflexivity]. }
  split; [exact second_project_projects|].
  split; [exact second_project_links|].
  split; [exact second_project_skills|].
  split; [exact I|]. split; [exact I|].
  split; [exact H|]. split.
  - exact (get_project_skills_empty second_project _ _ _
             second_project_projects second_project_links
             second_project_skills (VText "Site") I (or_intror H)).
  - apply (get_project_skills_empty second_project _ _ _
             second_project_projects second_project_links
             second_project_skills (VText "Shop") I).
    left. intros p [<-|[<-|[]]]; reflexivity.
Defined.

Lemma update_projects_frame_witness :
  second_project !! "projects"
  = Some (Table DB_Manager.projects_def [bot_row; site_row])
  /\ In "url" ["project_name"; "description"; "url"; "status_id"]
  /\ column_arg "url" (VText "http://site")
  /\ integer_arg (VInt 7) /\ integer_arg (VInt 2)
  /\ exists (d' : database) (rows' : list row) (j : nat),
       DB_Manager.update_projects "url" [VText "http://site"; VInt 7; VInt 2]
                                  second_project
       = (if update_refused [bot_row; site_row] "url" (VText "http://site")
                            (VInt 7) (VInt 2)
          then inl (IntegrityError
                      "NOT NULL constraint failed: projects.project_name")
          else inr tt, d')
       /\ col_index DB_Manager.projects_def "url" = Some j
       /\ (forall t, t ≠ "projects" -> d' !! t = second_project !! t)
       /\ d' !! "projects" = Some (Table DB_Manager.projects_def rows')
       /\ length rows' = length [bot_row; site_row]
       /\ (forall i r r',
             [bot_row; site_row] !! i = Some r -> rows' !! i = Some r' ->
             (project_keyed (VInt 7) (VInt 2) r = false -> r' = r)
             /\ (forall k, k ≠ j -> r' !! k = r !! k)
             /\ length r' = length r
             /\ (update_refused [bot_row; site_row] "url"
                                (VText "http://site") (VInt 7) (VInt 2)
                 = false ->
                 project_keyed (VInt 7) (VInt 2) r = true ->
                 r' = <[j := VText "http://site"]> r)
             /\ (update_refused [bot_row; site_row] "url"
                                (VText "http://site") (VInt 7) (VInt 2)
                 = true ->
                 r' = r))
       /\ (NoDup (map (field 0) [bot_row; site_row]) ->
           forall i1 i2 r1 r2,
             [bot_row; site_row] !! i1 = Some r1 ->
             [bot_row; site_row] !! i2 = Some r2 ->
             project_keyed (VInt 7) (VInt 2) r1 = true ->
             project_keyed (VInt 7) (VInt 2) r2 = true ->
             i1 = i2).
Proof.
  assert (H : In "url" ["project_name"; "description"; "url"; "status_id"]).
  { simpl. right. right. left. reflexivity. }
  assert (Hv : column_arg "url" (VText "http://site")) by exact I.
  assert (H7 : integer_arg (VInt 7)) by of_class.
  assert (H2 : integer_arg (VInt 2)) by of_class.
  split; [exact second_project_projects|]. split; [exact H|].
  split; [exact Hv|]. split; [exact H7|]. split; [exact H2|].
  exact (update_projects_frame second_project [bot_row; site_row] "url"
           (VText "http://site") (VInt 7) (VInt 2) second_project_projects H
           Hv H7 H2).
Defined.

(** A refused update, run: [None] for the name of a stored project raises
    and writes nothing. *)
Example update_projects_null_name :
  DB_Manager.update_projects "project_name" [VNull; VInt 7; VInt 2]
                             second_project
  = (inl (IntegrityError "NOT NULL constraint failed: projects.project_name"),
     second_project).
Proof. vm_compute. reflexivity. Qed.

(** That update, run: only the url of the second project differs. *)
Example update_projects_url :
  DB_Manager.update_projects "url" [VText "http://site"; VInt 7; VInt 2]
                             second_project
  = (inr tt,
     <["projects" :=
         Table DB_Manager.projects_def
           [ bot_row;
             [VInt 2; VInt 7; VText "Site"; VText "a web site";
              VText "http://site"; VInt 2] ]]> second_project).
Proof. vm_compute. reflexivity. Qed.


(** * Further properties of the methods *)

(** ** Storing projects *)

Lemma rfold_app {A S} (f : A -> S -> result S) (l1 l2 : list A) (s : S) :
  rfold f (l1 ++ l2) s = (s1 <- rfold f l1 s ;; rfold f l2 s1).
Proof.
  revert s. induction l1 as [|a l1 IH]; intros s; simpl; [reflexivity|].
  destruct (f a s); simpl; [reflexivity|]. apply IH.
Qed.

Lemma next_rowid_not_in (i : nat) (rows : list row) :
  ~ In (VInt (next_rowid i rows)) (map (field i) rows).
Proof.
  intros Hin. apply in_map_iff in Hin as (r & Hr & Hin).
  pose proof (next_rowid_fresh i rows) as Hfresh.
  assert (Hex : existsb (fun r => sql_eq (field i r)
                                         (VInt (next_rowid i rows))) rows = true).
  { apply existsb_exists. exists r. split; [exact Hin|].
    rewrite Hr. simpl. apply bool_decide_eq_true_2. reflexivity. }
  rewrite Hfresh in Hex. discriminate.
Qed.

Lemma new_project_row (rows : list row) (u n de ur st : value) :
  new_row DB_Manager.projects_def rows
          [("user_id", u); ("project_name", n); ("description", de);
           ("url", ur); ("status_id", st)]
  = [VInt (next_rowid 0 rows); u; n; de; ur; st].
Proof. destruct u, n, de, ur, st; reflexivity. Qed.

(** The INSERT of [insert_project] on one tuple of five values: an
    [IntegrityError] when the name is NULL, else the tuple appended under the
    next rowid. *)
Lemma sql_insert_project (d : database) (rows : list row)
    (u n de ur st : value) :
  d !! "projects" = Some (Table DB_Manager.projects_def rows) ->
  sql_insert false "projects" project_columns [u; n; de; ur; st] d
  = if is_null n
    then inl (IntegrityError
                "NOT NULL constraint failed: projects.project_name")
    else inr (<["projects" :=
                  Table DB_Manager.projects_def
                    (rows ++ [VInt (next_rowid 0 rows) :: [u; n; de; ur; st]])]>
                d).
Proof.
  intros Hd. unfold sql_insert, get_table. rewrite Hd. simpl.
  rewrite new_project_row.
  unfold constraint_failure. simpl.
  pose proof (next_rowid_fresh 0 rows) as Hfresh.
  destruct n; simpl; try reflexivity.
  - change (existsb _ rows)
      with (existsb (fun r => sql_eq (field 0 r) (VInt (next_rowid 0 rows)))
                    rows).
    rewrite Hfresh. reflexivity.
  - change (existsb _ rows)
      with (existsb (fun r => sql_eq (field 0 r) (VInt (next_rowid 0 rows)))
                    rows).
    rewrite Hfresh. reflexivity.
Qed.

(** The same INSERT on a tuple of another length binds nothing. *)
Lemma sql_insert_project_arity (d : database) (rows : list row) (t : row) :
  d !! "projects" = Some (Table DB_Manager.projects_def rows) ->
  length t <> 5%nat ->
  sql_insert false "projects" project_columns t d
  = inl (ProgrammingError "Incorrect number of bindings supplied").
Proof.
  intros Hd Hlen. unfold sql_insert, get_table. rewrite Hd. simpl.
  destruct t as [|a [|b [|c [|e [|f [|g t]]]]]]; simpl in *;
    try reflexivity.
  exfalso. apply Hlen. reflexivity.
Qed.

Lemma sql_insert_project_inv (d d' : database) (rows : list row) (t : row) :
  d !! "projects" = Some (Table DB_Manager.projects_def rows) ->
  sql_insert false "projects" project_columns t d = inr d' ->
  project_tuple_ok t
  /\ d' = <["projects" :=
             Table DB_Manager.projects_def
               (rows ++ [VInt (next_rowid 0 rows) :: t])]> d.
Proof.
  intros Hd Hrun.
  destruct (decide (length t = 5%nat)) as [Hlen|Hlen].
  - destruct t as [|u [|n [|de [|ur [|st [|g t]]]]]]; try discriminate Hlen.
    rewrite (sql_insert_project d rows u n de ur st Hd) in Hrun.
    destruct n; simpl in Hrun; try discriminate Hrun;
      injection Hrun as <-; (split; [|reflexivity]);
      eexists _, _, _, _, _; (split; [reflexivity|discriminate]).
  - rewrite (sql_insert_project_arity d rows t Hd Hlen) in Hrun.
    discriminate Hrun.
Qed.

(** A successful [executemany] of that INSERT appends the tuples, each behind
    a fresh integer id, after the stored rows. *)
Lemma rfold_insert_projects (data : list row) :
  forall (d d' : database) (rows : list row),
    d !! "projects" = Some (Table DB_Manager.projects_def rows) ->
    rfold (sql_insert false "projects" project_columns) data d = inr d' ->
    exists news,
      d' = <["projects" := Table DB_Manager.projects_def (rows ++ news)]> d
      /\ map (drop 1) news = data
      /\ Forall project_tuple_ok data
      /\ Forall (fun r => exists k, field 0 r = VInt k) news
      /\ (NoDup (map (field 0) rows) -> NoDup (map (field 0) (rows ++ news))).
Proof.
  induction data as [|t data IH]; intros d d' rows Hd Hrun; simpl in Hrun.
  - injection Hrun as <-. exists [].
    rewrite app_nil_r, (insert_id d "projects" _ Hd).
    repeat split; auto.
  - destruct (sql_insert false "projects" project_columns t d) as [e|d1] eqn:H1;
      simpl in Hrun; [discriminate Hrun|].
    apply (sql_insert_project_inv d d1 rows t Hd) in H1 as [Hok ->].
    destruct (IH _ d' (rows ++ [VInt (next_rowid 0 rows) :: t])
                 (lookup_insert_eq _ _ _) Hrun)
      as (news & -> & Hdata & Hall & Hints & Hnd).
    exists ((VInt (next_rowid 0 rows) :: t) :: news).
    rewrite insert_insert_eq, <- app_assoc. simpl.
    split; [reflexivity|]. split; [rewrite Hdata; reflexivity|].
    split; [constructor; assumption|].
    split; [constructor; [eexists; reflexivity|assumption]|].
    intros Hrows. rewrite <- app_assoc in Hnd. apply Hnd.
    rewrite map_app. simpl.
    apply NoDup_ListNoDup. apply NoDup_ListNoDup in Hrows.
    apply List.NoDup_app. repeat split; auto.
    + constructor; [intros []|constructor].
    + intros x Hx [<-|[]]. exact (next_rowid_not_in 0 rows Hx).
Qed.

Lemma rfold_insert_projects_fails (data : list row) :
  forall (d : database) (rows : list row),
    d !! "projects" = Some (Table DB_Manager.projects_def rows) ->
    Exists (fun t => ~ project_tuple_ok t) data ->
    exists e,
      rfold (sql_insert false "projects" project_columns) data d = inl e
      /\ (e = IntegrityError
                "NOT NULL constraint failed: projects.project_name"
          \/ e = ProgrammingError "Incorrect number of bindings supplied").
Proof.
  induction data as [|t data IH]; intros d rows Hd Hex.
  - inversion Hex.
  - simpl.
    destruct (sql_insert false "projects" project_columns t d) as [e|d1] eqn:H1.
    + exists e. split; [reflexivity|].
      destruct (decide (length t = 5%nat)) as [Hlen|Hlen].
      * destruct t as [|u [|n [|de [|ur [|st [|g t]]]]]]; try discriminate Hlen.
        rewrite (sql_insert_project d rows u n de ur st Hd) in H1.
        destruct (is_null n); [|discriminate H1].
        injection H1 as <-. left. reflexivity.
      * rewrite (sql_insert_project_arity d rows t Hd Hlen) in H1.
        injection H1 as <-. right. reflexivity.
    + apply (sql_insert_project_inv d d1 rows t Hd) in H1 as [Hok ->].
      simpl. apply (IH _ (rows ++ [VInt (next_rowid 0 rows) :: t])).
      * apply lookup_insert_eq.
      * inversion Hex as [? ? Hbad|? ? Htail]; subst; [contradiction|exact Htail].
Qed.

Lemma rfold_insert_projects_runs (data : list row) :
  forall (d : database) (rows : list row),
    d !! "projects" = Some (Table DB_Manager.projects_def rows) ->
    Forall project_tuple_ok data ->
    exists d', rfold (sql_insert false "projects" project_columns) data d
               = inr d'.
Proof.
  induction data as [|t data IH]; intros d rows Hd Hall; simpl.
  - eauto.
  - inversion Hall as [|? ? Hok Htail]; subst.
    destruct Hok as (u & n & de & ur & st & -> & Hn).
    rewrite (sql_insert_project d rows u n de ur st Hd).
    destruct n; [contradiction| |]; simpl;
      eapply IH; eauto; apply lookup_insert_eq.
Qed.

Lemma project_tuple_typed_ok (t : row) :
  project_tuple_typed t -> project_tuple_ok t.
Proof.
  intros (u & n & de & ur & st & -> & _).
  eexists _, _, _, _, _. split; [reflexivity|discriminate].
Qed.

(** X1. When every tuple has five values of the class of their columns (a
    str for the name, a str or [None] for the description and the url, an
    int of 64 bits or [None] for the user and the status) and ids are left
    for them, [insert_project] returns normally and appends the tuples to
    projects, in order and unchanged, each behind an integer id; the stored
    rows stay, and ids that were pairwise distinct stay so. *)
Theorem insert_project_stores (d : database) (rows data : list row) :
  d !! "projects" = Some (Table DB_Manager.projects_def rows) ->
  Forall project_tuple_typed data ->
  ids_left rows (length data) ->
  exists news,
    DB_Manager.insert_project data d
    = (inr tt,
       <["projects" := Table DB_Manager.projects_def (rows ++ news)]> d)
    /\ map (drop 1) news = data
    /\ Forall (fun r => exists k, field 0 r = VInt k) news
    /\ (NoDup (map (field 0) rows) -> NoDup (map (field 0) (rows ++ news))).
Proof.
  intros Hd Htyped _.
  assert (Hall : Forall project_tuple_ok data)
    by (induction Htyped; constructor; auto using project_tuple_typed_ok).
  destruct (rfold_insert_projects_runs data d rows Hd Hall) as [d' Hrun].
  destruct (rfold_insert_projects data d d' rows Hd Hrun)
    as (news & -> & Hdata & _ & Hints & Hnd).
  exists news. unfold DB_Manager.insert_project, DB_Manager.__executemany.
  fold project_columns. rewrite Hrun. auto.
Qed.

(** X2. When every int among the tuples is of 64 bits and some tuple has
    another length than five or [None] for a name, [insert_project] raises,
    an [IntegrityError] or a [ProgrammingError], and stores none of the
    tuples, not even those before the bad one. *)
Theorem insert_project_all_or_nothing (d : database) (rows data : list row)
    (bad : row) :
  d !! "projects" = Some (Table DB_Manager.projects_def rows) ->
  Forall (Forall bindable) data ->
  ids_left rows (length data) ->
  In bad data -> ~ project_tuple_ok bad ->
  exists e,
    DB_Manager.insert_project data d = (inl e, d)
    /\ ((exists msg, e = IntegrityError msg)
        \/ (exists msg, e = ProgrammingError msg)).
Proof.
  intros Hd _ _ Hin Hbad.
  destruct (rfold_insert_projects_fails data d rows Hd) as (e & Hrun & He).
  { apply List.Exists_exists. exists bad. auto. }
  exists e. unfold DB_Manager.insert_project, DB_Manager.__executemany.
  fold project_columns. rewrite Hrun. split; [reflexivity|].
  destruct He as [->| ->]; eauto.
Qed.

(** X3. A project inserted under a name and user that no stored project
    has, with values of the class of their columns and an id left for it, is
    found again: [get_project_id] returns the id the insert gave it, an id no
    stored project has. *)
Theorem insert_project_then_get_project_id (d : database) (rows : list row)
    (user_id : Z) (project_name : string) (de ur st : value) :
  d !! "projects" = Some (Table DB_Manager.projects_def rows) ->
  int64 user_id -> text_arg de -> text_arg ur -> integer_arg st ->
  ids_left rows 1 ->
  (forall r, In r rows ->
             project_named (VText project_name) (VInt user_id) r = false) ->
  exists (d' : database) (id : Z),
    DB_Manager.insert_project
      [[VInt user_id; VText project_name; de; ur; st]] d = (inr tt, d')
    /\ DB_Manager.get_project_id (VText project_name) (VInt user_id) d'
       = (inr (VInt id), d')
    /\ ~ In (VInt id) (map (field 0) rows).
Proof.
  intros Hd _ _ _ _ _ Hnone.
  exists (<["projects" :=
             Table DB_Manager.projects_def
               (rows ++ [[VInt (next_rowid 0 rows); VInt user_id;
                          VText project_name; de; ur; st]])]> d),
         (next_rowid 0 rows).
  split; [|split].
  - unfold DB_Manager.insert_project, DB_Manager.__executemany, rfold.
    fold project_columns.
    rewrite (sql_insert_project d rows _ _ _ _ _ Hd). reflexivity.
  - unfold DB_Manager.get_project_id, DB_Manager.__select_data, mbind'.
    rewrite (select_project_id _ (rows ++ [[VInt (next_rowid 0 rows);
                                            VInt user_id; VText project_name;
                                            de; ur; st]]))
      by apply lookup_insert_eq.
    rewrite (filter_first _ rows [] _ Hnone).
    + reflexivity.
    + unfold project_named. simpl.
      rewrite !bool_decide_eq_true_2 by reflexivity. reflexivity.
  - apply next_rowid_not_in.
Qed.

Lemma nameless_tuple_bad : ~ project_tuple_ok [VInt 8; VNull; VNull; VNull; VNull].
Proof.
  intros (u & n & de & ur & st & Heq & Hn). injection Heq as _ <- _ _ _.
  apply Hn. reflexivity.
Defined.

Lemma shop_tuple_typed :
  Forall project_tuple_typed
         [[VInt 8; VText "Shop"; VNull; VNull; VNull];
          [VInt 7; VText "Blog"; VText "notes"; VNull; VInt 3]].
Proof.
  repeat constructor; eexists _, _, _, _, _;
    (split; [reflexivity|repeat split; of_class]).
Defined.

Lemma shop_tuple_bindable :
  Forall (Forall bindable)
         [[VInt 8; VText "Shop"; VNull; VNull; VNull];
          [VInt 8; VNull; VNull; VNull; VNull]].
Proof. repeat constructor; of_class. Defined.

Lemma ids_left_two : ids_left [bot_row; site_row] 2.
Proof. of_class. Defined.

Lemma ids_left_one : ids_left [bot_row; site_row] 1.
Proof. of_class. Defined.

Lemma insert_project_stores_witness :
  second_project !! "projects"
  = Some (Table DB_Manager.projects_def [bot_row; site_row])
  /\ Forall project_tuple_typed
            [[VInt 8; VText "Shop"; VNull; VNull; VNull];
             [VInt 7; VText "Blog"; VText "notes"; VNull; VInt 3]]
  /\ ids_left [bot_row; site_row] 2
  /\ exists news,
       DB_Manager.insert_project
         [[VInt 8; VText "Shop"; VNull; VNull; VNull];
          [VInt 7; VText "Blog"; VText "notes"; VNull; VInt 3]] second_project
       = (inr tt,
          <["projects" := Table DB_Manager.projects_def
                                ([bot_row; site_row] ++ news)]> second_project)
       /\ map (drop 1) news
          = [[VInt 8; VText "Shop"; VNull; VNull; VNull];
             [VInt 7; VText "Blog"; VText "notes"; VNull; VInt 3]]
       /\ Forall (fun r => exists k, field 0 r = VInt k) news
       /\ (NoDup (map (field 0) [bot_row; site_row]) ->
           NoDup (map (field 0) ([bot_row; site_row] ++ news))).
Proof.
  split; [exact second_project_projects|]. split; [exact shop_tuple_typed|].
  split; [exact ids_left_two|].
  exact (insert_project_stores second_project [bot_row; site_row] _
           second_project_projects shop_tuple_typed ids_left_two).
Defined.

Lemma insert_project_all_or_nothing_witness :
  second_project !! "projects"
  = Some (Table DB_Manager.projects_def [bot_row; site_row])
  /\ Forall (Forall bindable)
            [[VInt 8; VText "Shop"; VNull; VNull; VNull];
             [VInt 8; VNull; VNull; VNull; VNull]]
  /\ ids_left [bot_row; site_row] 2
  /\ In [VInt 8; VNull; VNull; VNull; VNull]
        [[VInt 8; VText "Shop"; VNull; VNull; VNull];
         [VInt 8; VNull; VNull; VNull; VNull]]
  /\ ~ project_tuple_ok [VInt 8; VNull; VNull; VNull; VNull]
  /\ exists e,
       DB_Manager.insert_project
         [[VInt 8; VText "Shop"; VNull; VNull; VNull];
          [VInt 8; VNull; VNull; VNull; VNull]] second_project
       = (inl e, second_project)
       /\ ((exists msg, e = IntegrityError msg)
           \/ (exists msg, e = ProgrammingError msg)).
Proof.
  assert (Hin : In [VInt 8; VNull; VNull; VNull; VNull]
                   [[VInt 8; VText "Shop"; VNull; VNull; VNull];
                    [VInt 8; VNull; VNull; VNull; VNull]])
    by (right; left; reflexivity).
  split; [exact second_project_projects|].
  split; [exact shop_tuple_bindable|]. split; [exact ids_left_two|].
  split; [exact Hin|]. split; [exact nameless_tuple_bad|].
  exact (insert_project_all_or_nothing second_project [bot_row; site_row] _ _
           second_project_projects shop_tuple_bindable ids_left_two Hin
           nameless_tuple_bad).
Defined.

Lemma insert_project_then_get_project_id_witness :
  second_project !! "projects"
  = Some (Table DB_Manager.projects_def [bot_row; site_row])
  /\ int64 8 /\ text_arg VNull /\ integer_arg VNull
  /\ ids_left [bot_row; site_row] 1
  /\ (forall r, In r [bot_row; site_row] ->
                project_named (VText "Shop") (VInt 8) r = false)
  /\ exists (d' : database) (id : Z),
       DB_Manager.insert_project
         [[VInt 8; VText "Shop"; VNull; VNull; VNull]] second_project
       = (inr tt, d')
       /\ DB_Manager.get_project_id (VText "Shop") (VInt 8) d'
          = (inr (VInt id), d')
       /\ ~ In (VInt id) (map (field 0) [bot_row; site_row]).
Proof.
  assert (H : forall r, In r [bot_row; site_row] ->
                        project_named (VText "Shop") (VInt 8) r = false).
  { intros r [<-|[<-|[]]]; reflexivity. }
  assert (H8 : int64 8) by (unfold int64; lia).
  split; [exact second_project_projects|]. split; [exact H8|].
  split; [exact I|]. split; [exact I|]. split; [exact ids_left_one|].
  split; [exact H|].
  exact (insert_project_then_get_project_id second_project [bot_row; site_row]
           8 "Shop" VNull VNull VNull second_project_projects H8 I I I
           ids_left_one H).
Defined.


(** ** Deleting projects and links *)

Lemma delete_project_rows (d : database) (rows : list row)
    (user_id project_id : value) :
  d !! "projects" = Some (Table DB_Manager.projects_def rows) ->
  DB_Manager.delete_project user_id project_id d
  = (inr tt,
     <["projects" :=
         Table DB_Manager.projects_def
           (List.filter (fun r => negb (project_keyed user_id project_id r))
                        rows)]> d).
Proof.
  intros Hd. unfold DB_Manager.delete_project, DB_Manager.__executemany, rfold.
  rewrite (sql_delete_rows "projects" DB_Manager.projects_def _
             [1%nat; 0%nat] _ _ rows Hd) by reflexivity.
  simpl. do 3 f_equal. apply filter_ext_eq. intros r.
  unfold hit, project_keyed. simpl. rewrite andb_true_r. reflexivity.
Qed.

Lemma delete_skill_rows (d : database) (links : list row)
    (project_id skill_id : value) :
  d !! "project_skills" = Some (Table DB_Manager.project_skills_def links) ->
  DB_Manager.delete_skill project_id skill_id d
  = (inr tt,
     <["project_skills" :=
         Table DB_Manager.project_skills_def
           (List.filter (fun r => negb (link_keyed project_id skill_id r))
                        links)]> d).
Proof.
  intros Hd. unfold DB_Manager.delete_skill, DB_Manager.__executemany, rfold.
  rewrite (sql_delete_rows "project_skills" DB_Manager.project_skills_def _
             [0%nat; 1%nat] _ _ links Hd) by reflexivity.
  simpl. do 3 f_equal. apply filter_ext_eq. intros r.
  unfold hit, link_keyed. simpl. rewrite andb_true_r. reflexivity.
Qed.

Lemma filter_negb_In {A} (p : A -> bool) (l : list A) (a : A) :
  In a (List.filter (fun x => negb (p x)) l) <-> In a l /\ p a = false.
Proof.
  rewrite filter_In. split; intros [Hin Hp]; (split; [exact Hin|]).
  - apply negb_true_iff. exact Hp.
  - apply negb_true_iff. exact Hp.
Qed.

(** X4. For a user and an id that are ints of 64 bits or [None],
    [delete_project] returns normally; projects is left with exactly the
    rows that are not of that user and id, in the order and as often as they
    were stored; every other table is as it was, the rows of project_skills
    that name the project among them. *)
Theorem delete_project_removes (d : database) (rows : list row)
    (user_id project_id : value) :
  d !! "projects" = Some (Table DB_Manager.projects_def rows) ->
  integer_arg user_id ->
  integer_arg project_id ->
  exists (d' : database) (rows' : list row),
    DB_Manager.delete_project user_id project_id d = (inr tt, d')
    /\ d' !! "projects" = Some (Table DB_Manager.projects_def rows')
    /\ rows' = List.filter
                 (fun r => negb (project_keyed user_id project_id r)) rows
    /\ (forall r, In r rows' <->
                  In r rows /\ project_keyed user_id project_id r = false)
    /\ (forall t, t ≠ "projects" -> d' !! t = d !! t).
Proof.
  intros Hd _ _. eexists _, _.
  split; [exact (delete_project_rows d rows user_id project_id Hd)|].
  split; [apply lookup_insert_eq|]. split; [reflexivity|]. split.
  - intros r. apply filter_negb_In.
  - intros t Ht. apply lookup_insert_ne. congruence.
Qed.

(** X5. Once [delete_project] has removed the projects of a user under an
    id, each an int of 64 bits or [None], a name, a str or [None], that only
    those projects bore is not found any more: [get_project_id] raises
    [ValueError("Project not found")]. *)
Theorem delete_project_then_get_project_id (d : database) (rows : list row)
    (user_id project_id project_name : value) :
  d !! "projects" = Some (Table DB_Manager.projects_def rows) ->
  integer_arg user_id -> integer_arg project_id -> text_arg project_name ->
  (forall r, In r rows -> project_named project_name user_id r = true ->
             sql_eq (field 0 r) project_id = true) ->
  exists d',
    DB_Manager.delete_project user_id project_id d = (inr tt, d')
    /\ DB_Manager.get_project_id project_name user_id d'
       = (inl (ValueError "Project not found"), d').
Proof.
  intros Hd _ _ _ Honly. eexists.
  split; [exact (delete_project_rows d rows user_id project_id Hd)|].
  unfold DB_Manager.get_project_id, DB_Manager.__select_data, mbind'.
  rewrite (select_project_id _ _ project_name user_id (lookup_insert_eq _ _ _)).
  rewrite filter_none; [reflexivity|].
  intros r Hr. apply filter_negb_In in Hr as [Hin Hkey].
  destruct (project_named project_name user_id r) eqn:Hnamed; [|reflexivity].
  exfalso. pose proof (Honly r Hin Hnamed) as Hid.
  unfold project_named in Hnamed. apply andb_true_iff in Hnamed as [_ Hu].
  unfold project_keyed in Hkey. rewrite Hu, Hid in Hkey. discriminate.
Qed.


(** X7. For a project id and a skill id that are ints of 64 bits or [None],
    [delete_skill] returns normally; project_skills is left with exactly the
    rows that are not of that pair, in the order and as often as they were
    stored, so every row of the pair is gone, however often it was stored;
    every other table is as it was. *)
Theorem delete_skill_removes (d : database) (links : list row)
    (project_id skill_id : value) :
  d !! "project_skills" = Some (Table DB_Manager.project_skills_def links) ->
  integer_arg project_id ->
  integer_arg skill_id ->
  exists (d' : database) (links' : list row),
    DB_Manager.delete_skill project_id skill_id d = (inr tt, d')
    /\ d' !! "project_skills"
       = Some (Table DB_Manager.project_skills_def links')
    /\ links' = List.filter
                  (fun r => negb (link_keyed project_id skill_id r)) links
    /\ (forall r, In r links' <->
                  In r links /\ link_keyed project_id skill_id r = false)
    /\ (forall t, t ≠ "project_skills" -> d' !! t = d !! t).
Proof.
  intros Hd _ _. eexists _, _.
  split; [exact (delete_skill_rows d links project_id skill_id Hd)|].
  split; [apply lookup_insert_eq|]. split; [reflexivity|]. split.
  - intros r. apply filter_negb_In.
  - intros t Ht. apply lookup_insert_ne. congruence.
Qed.

(** X8. [delete_skill] undoes [insert_skill]: for a stored project and a
    stored skill that were not linked, one or two calls of [insert_skill]
    followed by one [delete_skill] of their ids give back the database as it
    was. *)
Theorem insert_skill_then_delete_skill (d : database)
    (projects links all_skills pre post spre spost : list row) (p s : row)
    (user_id project_name skill : value) (pid sid : Z) :
  d !! "projects" = Some (Table DB_Manager.projects_def projects) ->
  d !! "project_skills" = Some (Table DB_Manager.project_skills_def links) ->
  d !! "skills" = Some (Table DB_Manager.skills_def all_skills) ->
  projects = pre ++ p :: post ->
  (forall r, In r pre -> project_named project_name user_id r = false) ->
  project_named project_name user_id p = true ->
  field 0 p = VInt pid ->
  all_skills = spre ++ s :: spost ->
  (forall r, In r spre -> skill_named skill r = false) ->
  skill_named skill s = true ->
  field 0 s = VInt sid ->
  (forall l, In l links -> link_keyed (VInt pid) (VInt sid) l = false) ->
  exists d1 d2,
    DB_Manager.insert_skill user_id project_name skill d = (inr tt, d1)
    /\ DB_Manager.delete_skill (VInt pid) (VInt sid) d1 = (inr tt, d)
    /\ DB_Manager.insert_skill user_id project_name skill d1 = (inr tt, d2)
    /\ DB_Manager.delete_skill (VInt pid) (VInt sid) d2 = (inr tt, d).
Proof.
  intros Hdp Hdl Hds Hps Hpre Hp Hpid Hss Hspre Hs Hsid Hfree.
  pose proof (insert_skill_appends d projects links all_skills Hdp Hdl Hds
                user_id project_name skill pre post spre spost p s
                Hps Hpre Hp Hss Hspre Hs) as H1.
  rewrite Hpid, Hsid in H1.
  set (d1 := <["project_skills" :=
                 Table DB_Manager.project_skills_def
                       (links ++ [[VInt pid; VInt sid]])]> d) in *.
  assert (Hd1p : d1 !! "projects" = Some (Table DB_Manager.projects_def projects))
    by (unfold d1; rewrite lookup_insert_ne by discriminate; exact Hdp).
  assert (Hd1s : d1 !! "skills" = Some (Table DB_Manager.skills_def all_skills))
    by (unfold d1; rewrite lookup_insert_ne by discriminate; exact Hds).
  assert (Hd1l : d1 !! "project_skills"
                 = Some (Table DB_Manager.project_skills_def
                               (links ++ [[VInt pid; VInt sid]])))
    by (unfold d1; apply lookup_insert_eq).
  pose proof (insert_skill_appends d1 projects _ all_skills Hd1p Hd1l Hd1s
                user_id project_name skill pre post spre spost p s
                Hps Hpre Hp Hss Hspre Hs) as H2.
  rewrite Hpid, Hsid in H2.
  assert (Hself : link_keyed (VInt pid) (VInt sid) [VInt pid; VInt sid] = true).
  { unfold link_keyed. simpl.
    rewrite !bool_decide_eq_true_2 by reflexivity. reflexivity. }
  assert (Hkeep : List.filter
                    (fun r => negb (link_keyed (VInt pid) (VInt sid) r)) links
                  = links).
  { apply filter_all. intros l Hl. rewrite (Hfree l Hl). reflexivity. }
  exists d1, (<["project_skills" :=
                 Table DB_Manager.project_skills_def
                       ((links ++ [[VInt pid; VInt sid]])
                          ++ [[VInt pid; VInt sid]])]> d1).
  split; [exact H1|]. split; [|split; [exact H2|]].
  - rewrite (delete_skill_rows d1 _ (VInt pid) (VInt sid) Hd1l).
    rewrite List.filter_app, Hkeep. simpl. rewrite Hself. simpl.
    rewrite app_nil_r. unfold d1.
    rewrite insert_insert_eq, (insert_id d _ _ Hdl). reflexivity.
  - rewrite (delete_skill_rows _ _ (VInt pid) (VInt sid)
               (lookup_insert_eq _ _ _)).
    rewrite !List.filter_app, Hkeep. simpl. rewrite Hself. simpl.
    rewrite !app_nil_r. unfold d1.
    rewrite !insert_insert_eq, (insert_id d _ _ Hdl). reflexivity.
Qed.

Lemma delete_project_removes_witness :
  second_project !! "projects"
  = Some (Table DB_Manager.projects_def [bot_row; site_row])
  /\ integer_arg (VInt 7) /\ integer_arg (VInt 1)
  /\ exists (d' : database) (rows' : list row),
       DB_Manager.delete_project (VInt 7) (VInt 1) second_project = (inr tt, d')
       /\ d' !! "projects" = Some (Table DB_Manager.projects_def rows')
       /\ rows' = List.filter
                    (fun r => negb (project_keyed (VInt 7) (VInt 1) r))
                    [bot_row; site_row]
       /\ (forall r, In r rows' <->
                     In r [bot_row; site_row]
                     /\ project_keyed (VInt 7) (VInt 1) r = false)
       /\ (forall t, t ≠ "projects" -> d' !! t = second_project !! t).
Proof.
  assert (H7 : integer_arg (VInt 7)) by of_class.
  assert (H1 : integer_arg (VInt 1)) by of_class.
  split; [exact second_project_projects|].
  split; [exact H7|]. split; [exact H1|].
  exact (delete_project_removes second_project [bot_row; site_row]
           (VInt 7) (VInt 1) second_project_projects H7 H1).
Defined.

Lemma delete_project_then_get_project_id_witness :
  second_project !! "projects"
  = Some (Table DB_Manager.projects_def [bot_row; site_row])
  /\ integer_arg (VInt 7) /\ integer_arg (VInt 2) /\ text_arg (VText "Site")
  /\ (forall r, In r [bot_row; site_row] ->
                project_named (VText "Site") (VInt 7) r = true ->
                sql_eq (field 0 r) (VInt 2) = true)
  /\ exists d',
       DB_Manager.delete_project (VInt 7) (VInt 2) second_project = (inr tt, d')
       /\ DB_Manager.get_project_id (VText "Site") (VInt 7) d'
          = (inl (ValueError "Project not found"), d').
Proof.
  assert (H : forall r, In r [bot_row; site_row] ->
                        project_named (VText "Site") (VInt 7) r = true ->
                        sql_eq (field 0 r) (VInt 2) = true).
  { intros r [<-|[<-|[]]] Hn; [discriminate Hn|reflexivity]. }
  assert (H7 : integer_arg (VInt 7)) by of_class.
  assert (H2 : integer_arg (VInt 2)) by of_class.
  split; [exact second_project_projects|].
  split; [exact H7|]. split; [exact H2|]. split; [exact I|].
  split; [exact H|].
  exact (delete_project_then_get_project_id second_project
           [bot_row; site_row] (VInt 7) (VInt 2) (VText "Site")
           second_project_projects H7 H2 I H).
Defined.



Lemma delete_skill_removes_witness :
  second_project !! "project_skills"
  = Some (Table DB_Manager.project_skills_def [[VInt 1; VInt 2]])
  /\ integer_arg (VInt 1) /\ integer_arg (VInt 2)
  /\ exists (d' : database) (links' : list row),
       DB_Manager.delete_skill (VInt 1) (VInt 2) second_project = (inr tt, d')
       /\ d' !! "project_skills"
          = Some (Table DB_Manager.project_skills_def links')
       /\ links' = List.filter
                     (fun r => negb (link_keyed (VInt 1) (VInt 2) r))
                     [[VInt 1; VInt 2]]
       /\ (forall r, In r links' <->
                     In r [[VInt 1; VInt 2]]
                     /\ link_keyed (VInt 1) (VInt 2) r = false)
       /\ (forall t, t ≠ "project_skills" -> d' !! t = second_project !! t).
Proof.
  assert (H1 : integer_arg (VInt 1)) by of_class.
  assert (H2 : integer_arg (VInt 2)) by of_class.
  split; [exact second_project_links|].
  split; [exact H1|]. split; [exact H2|].
  exact (delete_skill_removes second_project [[VInt 1; VInt 2]]
           (VInt 1) (VInt 2) second_project_links H1 H2).
Defined.

Lemma insert_skill_then_delete_skill_witness :
  second_project !! "projects"
  = Some (Table DB_Manager.projects_def [bot_row; site_row])
  /\ second_project !! "project_skills"
     = Some (Table DB_Manager.project_skills_def [[VInt 1; VInt 2]])
  /\ second_project !! "skills"
     = Some (Table DB_Manager.skills_def seeded_skills)
  /\ (forall r, In r [bot_row] ->
                project_named (VText "Site") (VInt 7) r = false)
  /\ project_named (VText "Site") (VInt 7) site_row = true
  /\ (forall r, In r [[VInt 1; VText "Python"]; [VInt 2; VText "SQL"]] ->
                skill_named (VText "API") r = false)
  /\ skill_named (VText "API") [VInt 3; VText "API"] = true
  /\ (forall l, In l [[VInt 1; VInt 2]] ->
                link_keyed (VInt 2) (VInt 3) l = false)
  /\ exists d1 d2,
       DB_Manager.insert_skill (VInt 7) (VText "Site") (VText "API")
                               second_project = (inr tt, d1)
       /\ DB_Manager.delete_skill (VInt 2) (VInt 3) d1
          = (inr tt, second_project)
       /\ DB_Manager.insert_skill (VInt 7) (VText "Site") (VText "API") d1
          = (inr tt, d2)
       /\ DB_Manager.delete_skill (VInt 2) (VInt 3) d2
          = (inr tt, second_project).
Proof.
  assert (Hpre : forall r, In r [bot_row] ->
                           project_named (VText "Site") (VInt 7) r = false).
  { intros r [<-|[]]. reflexivity. }
  assert (Hspre : forall r,
             In r [[VInt 1; VText "Python"]; [VInt 2; VText "SQL"]] ->
             skill_named (VText "API") r = false).
  { intros r [<-|[<-|[]]]; reflexivity. }
  assert (Hfree : forall l, In l [[VInt 1; VInt 2]] ->
                            link_keyed (VInt 2) (VInt 3) l = false).
  { intros l [<-|[]]. reflexivity. }
  split; [exact second_project_projects|].
  split; [exact second_project_links|].
  split; [exact second_project_skills|].
  split; [exact Hpre|]. split; [reflexivity|].
  split; [exact Hspre|]. split; [reflexivity|]. split; [exact Hfree|].
  exact (insert_skill_then_delete_skill second_project
           [bot_row; site_row] [[VInt 1; VInt 2]] seeded_skills
           [bot_row] [] [[VInt 1; VText "Python"]; [VInt 2; VText "SQL"]]
           [[VInt 4; VText "Discord"]] site_row [VInt 3; VText "API"]
           (VInt 7) (VText "Site") (VText "API") 2 3
           second_project_projects second_project_links second_project_skills
           eq_refl Hpre eq_refl eq_refl eq_refl Hspre eq_refl eq_refl Hfree).
Defined.


(** ** What [insert_skill] refuses *)

(** X9. [insert_skill] looks the project up first: when no stored project
    has the name, a str or [None], and the user, an int of 64 bits or
    [None], it raises [ValueError("Project not found")], whatever the skill
    name, stored or not, and stores nothing. *)
Theorem insert_skill_project_not_found (d : database) (projects : list row)
    (user_id project_name skill : value) :
  d !! "projects" = Some (Table DB_Manager.projects_def projects) ->
  integer_arg user_id -> text_arg project_name -> text_arg skill ->
  (forall r, In r projects -> project_named project_name user_id r = false) ->
  DB_Manager.insert_skill user_id project_name skill d
  = (inl (ValueError "Project not found"), d).
Proof.
  intros Hd _ _ _ Hnone.
  unfold DB_Manager.insert_skill, DB_Manager.__select_data, mbind'.
  rewrite (select_project_id d projects project_name user_id Hd).
  rewrite (filter_none _ projects Hnone). reflexivity.
Qed.

(** X10. For a stored project, found by its name, a str or [None], and its
    user, an int of 64 bits or [None], a skill name, a str or [None], that
    no stored skill has makes [insert_skill] raise
    [ValueError("Skill not found")] and store nothing. *)
Theorem insert_skill_skill_not_found (d : database)
    (projects all_skills : list row) (p : row)
    (user_id project_name skill : value) :
  d !! "projects" = Some (Table DB_Manager.projects_def projects) ->
  d !! "skills" = Some (Table DB_Manager.skills_def all_skills) ->
  integer_arg user_id -> text_arg project_name -> text_arg skill ->
  In p projects -> project_named project_name user_id p = true ->
  (forall r, In r all_skills -> skill_named skill r = false) ->
  DB_Manager.insert_skill user_id project_name skill d
  = (inl (ValueError "Skill not found"), d).
Proof.
  intros Hdp Hds _ _ _ Hin Hp Hnone.
  unfold DB_Manager.insert_skill, DB_Manager.__select_data, mbind'.
  rewrite (select_project_id d projects project_name user_id Hdp).
  destruct (List.filter (project_named project_name user_id) projects)
    as [|p0 rest] eqn:Hf.
  - exfalso.
    assert (Hp0 : In p (List.filter (project_named project_name user_id)
                                    projects)) by (apply filter_In; auto).
    rewrite Hf in Hp0. destruct Hp0.
  - simpl.
    rewrite (sql_select_rows "skills" DB_Manager.skills_def _ _ [0%nat]
                             [1%nat] _ _ all_skills Hds) by reflexivity.
    rewrite filter_none; [reflexivity|].
    intros r Hr. specialize (Hnone r Hr). unfold skill_named in Hnone.
    unfold hit. simpl. rewrite Hnone. reflexivity.
Qed.

Lemma insert_skill_project_not_found_witness :
  second_project !! "projects"
  = Some (Table DB_Manager.projects_def [bot_row; site_row])
  /\ integer_arg (VInt 8) /\ text_arg (VText "Bot") /\ text_arg (VText "SQL")
  /\ (forall r, In r [bot_row; site_row] ->
                project_named (VText "Bot") (VInt 8) r = false)
  /\ DB_Manager.insert_skill (VInt 8) (VText "Bot") (VText "SQL") second_project
     = (inl (ValueError "Project not found"), second_project).
Proof.
  assert (H : forall r, In r [bot_row; site_row] ->
                        project_named (VText "Bot") (VInt 8) r = false).
  { intros r [<-|[<-|[]]]; reflexivity. }
  assert (H8 : integer_arg (VInt 8)) by of_class.
  split; [exact second_project_projects|].
  split; [exact H8|]. split; [exact I|]. split; [exact I|].
  split; [exact H|].
  exact (insert_skill_project_not_found second_project [bot_row; site_row]
           (VInt 8) (VText "Bot") (VText "SQL") second_project_projects
           H8 I I H).
Defined.

Lemma insert_skill_skill_not_found_witness :
  second_project !! "projects"
  = Some (Table DB_Manager.projects_def [bot_row; site_row])
  /\ second_project !! "skills"
     = Some (Table DB_Manager.skills_def seeded_skills)
  /\ integer_arg (VInt 7) /\ text_arg (VText "Bot") /\ text_arg (VText "Rust")
  /\ In bot_row [bot_row; site_row]
  /\ project_named (VText "Bot") (VInt 7) bot_row = true
  /\ (forall r, In r seeded_skills -> skill_named (VText "Rust") r = false)
  /\ DB_Manager.insert_skill (VInt 7) (VText "Bot") (VText "Rust")
                             second_project
     = (inl (ValueError "Skill not found"), second_project).
Proof.
  assert (Hin : In bot_row [bot_row; site_row]) by (left; reflexivity).
  assert (H : forall r, In r seeded_skills ->
                        skill_named (VText "Rust") r = false).
  { intros r [<-|[<-|[<-|[<-|[]]]]]; reflexivity. }
  assert (H7 : integer_arg (VInt 7)) by of_class.
  split; [exact second_project_projects|].
  split; [exact second_project_skills|].
  split; [exact H7|]. split; [exact I|]. split; [exact I|].
  split; [exact Hin|]. split; [reflexivity|]. split; [exact H|].
  exact (insert_skill_skill_not_found second_project [bot_row; site_row]
           seeded_skills bot_row (VInt 7) (VText "Bot") (VText "Rust")
           second_project_projects second_project_skills H7 I I Hin eq_refl
           H).
Defined.


(** ** Projects with their status *)

Lemma sql_eq_sym (a b : value) : sql_eq a b = sql_eq b a.
Proof.
  destruct a, b; simpl; try reflexivity;
    apply bool_decide_ext; split; congruence.
Qed.

Lemma find_ext_eq {A} (p q : A -> bool) (l : list A) :
  (forall a, p a = q a) -> List.find p l = List.find q l.
Proof.
  intros Hpq. induction l as [|a l IH]; simpl; [reflexivity|].
  rewrite Hpq, IH. reflexivity.
Qed.

(** Under distinct ids at most one row has a given id. *)
Lemma filter_by_id (rows : list row) (v : value) :
  NoDup (map (field 0) rows) ->
  List.filter (fun s => sql_eq v (field 0 s)) rows
  = match List.find (fun s => sql_eq v (field 0 s)) rows with
    | Some s => [s]
    | None => []
    end.
Proof.
  induction rows as [|s rows IH]; simpl; intros Hnd; [reflexivity|].
  apply NoDup_cons in Hnd as [Hs Hnd].
  destruct (sql_eq v (field 0 s)) eqn:Heq; [|exact (IH Hnd)].
  f_equal. apply filter_none. intros s' Hs'.
  destruct (sql_eq v (field 0 s')) eqn:Heq'; [|reflexivity].
  exfalso. apply Hs. apply sql_eq_true in Heq, Heq'.
  rewrite <- Heq, Heq'. apply list_elem_of_In, in_map. exact Hs'.
Qed.

Section LeftJoin.
Context {B : Type}.
Variables (statuses : list row) (nulls : row).
Variables (on : row -> row -> bool) (on' : list row -> bool).
Variables (w : list row -> bool) (sel : list row -> B).
Hypothesis on_pair : forall p s, on' ([p] ++ [s]) = on p s.
Hypothesis on_unique :
  forall p, List.filter (on p) statuses
            = match List.find (on p) statuses with
              | Some s => [s]
              | None => []
              end.

(** A LEFT JOIN whose ON clause matches at most one row, followed by WHERE
    and SELECT: one result row for each row of the left table the WHERE
    clause keeps. *)
Lemma left_join_one (projects : list row) :
  map sel
      (List.filter w
         (List.flat_map
            (fun jr =>
               match List.filter on' (map (fun x => jr ++ [x]) statuses) with
               | [] => [jr ++ [nulls]]
               | matches => matches
               end)
            (map (fun r => [r]) projects)))
  = map (fun p => sel [p; beside statuses nulls on p])
        (List.filter (fun p => w [p; beside statuses nulls on p]) projects).
Proof.
  induction projects as [|p projects IH]; simpl; [reflexivity|].
  rewrite List.filter_app, map_app, IH. clear IH.
  assert (Hp : match List.filter on' (map (fun x => [p; x]) statuses) with
               | [] => [[p; nulls]]
               | matches => matches
               end = [[p; beside statuses nulls on p]]).
  { rewrite filter_map_swap.
    rewrite (filter_ext_eq _ (on p)) by (intros s; apply (on_pair p s)).
    rewrite on_unique. unfold beside.
    destruct (List.find (on p) statuses); reflexivity. }
  rewrite Hp. simpl.
  destruct (w [p; beside statuses nulls on p]); reflexivity.
Qed.

End LeftJoin.

Section ProjectStatus.
Variable d : database.
Variables projects statuses : list row.
Hypothesis projects_stored :
  d !! "projects" = Some (Table DB_Manager.projects_def projects).
Hypothesis status_stored :
  d !! "status" = Some (Table DB_Manager.status_def statuses).
Hypothesis status_ids : NoDup (map (field 0) statuses).

Lemma beside_status_name (on : row -> row -> bool) (p : row) :
  (forall s, on p s = sql_eq (field 5 p) (field 0 s)) ->
  field 1 (beside statuses [VNull; VNull] on p)
  = status_name_of statuses (field 5 p).
Proof.
  intros Hon. unfold beside, status_name_of.
  rewrite (find_ext_eq (on p) (fun s => sql_eq (field 5 p) (field 0 s)))
    by (intros s; apply Hon).
  destruct (List.find _ statuses); reflexivity.
Qed.

(** X11. With status ids distinct and a user that is an int of 64 bits or
    [None], [get_projects] returns one row for each stored project of the
    user, in stored order: its id, name, description and url, and the name
    of its status, [None] when the project has no status or one that is not
    stored. *)
Theorem get_projects_rows (user_id : value) :
  integer_arg user_id ->
  DB_Manager.get_projects user_id d
  = (inr (map (fun p => [ field 0 p; field 2 p; field 3 p; field 4 p;
                          status_name_of statuses (field 5 p) ])
              (List.filter (project_of_user user_id) projects)), d).
Proof.
  intros _.
  unfold DB_Manager.get_projects, DB_Manager.__select_data. f_equal.
  unfold DB_Manager.sql_get_projects, scan, left_join, get_table.
  rewrite projects_stored. simpl. rewrite status_stored. simpl.
  unfold select. simpl. unfold ret. f_equal.
  rewrite (left_join_one statuses [VNull; VNull]
             (fun p s => sql_eq (field 5 p) (field 0 s))).
  - rewrite (filter_ext_eq _ (project_of_user user_id))
      by (intros p; unfold project_of_user; simpl; apply andb_true_r).
    apply map_ext. intros p. simpl. do 4 f_equal.
    change (cell (1%nat, 1%nat) [p; ?x]) with (field 1 x).
    f_equal. apply beside_status_name. reflexivity.
  - reflexivity.
  - intros p. apply filter_by_id. exact status_ids.
Qed.

(** X12. With status ids distinct, a user that is an int of 64 bits or
    [None] and a name that is a str or [None], [get_project_info] returns
    one row for each stored project of that user and name, in stored order:
    name, description, url and the name of the status, [None] when the
    project has no status or one that is not stored; no such project gives
    the empty list. *)
Theorem get_project_info_rows (user_id project_name : value) :
  integer_arg user_id ->
  text_arg project_name ->
  DB_Manager.get_project_info user_id project_name d
  = (inr (map (fun p => [ field 2 p; field 3 p; field 4 p;
                          status_name_of statuses (field 5 p) ])
              (List.filter (project_named project_name user_id) projects)), d).
Proof.
  intros _ _.
  unfold DB_Manager.get_project_info, DB_Manager.__select_data. f_equal.
  unfold DB_Manager.sql_get_project_info, scan, left_join, get_table.
  rewrite projects_stored. simpl. rewrite status_stored. simpl.
  unfold select. simpl. unfold ret. f_equal.
  rewrite (left_join_one statuses [VNull; VNull]
             (fun p s => sql_eq (field 0 s) (field 5 p))).
  - rewrite (filter_ext_eq _ (project_named project_name user_id)).
    + apply map_ext. intros p. simpl. do 3 f_equal.
      change (cell (1%nat, 1%nat) [p; ?x]) with (field 1 x).
      f_equal. apply beside_status_name. intros s. apply sql_eq_sym.
    + intros p. unfold project_named. simpl.
      rewrite andb_true_r. apply andb_comm.
  - reflexivity.
  - intros p.
    rewrite (filter_ext_eq _ (fun s => sql_eq (field 5 p) (field 0 s)))
      by (intros s; apply sql_eq_sym).
    rewrite (find_ext_eq _ (fun s => sql_eq (field 5 p) (field 0 s)))
      by (intros s; apply sql_eq_sym).
    apply filter_by_id. exact status_ids.
Qed.

End ProjectStatus.

Lemma seeded_statuses_ids : NoDup (map (field 0) seeded_statuses).
Proof. apply (bool_decide_unpack _). vm_compute. exact I. Defined.

Lemma get_projects_rows_witness :
  second_project !! "projects"
  = Some (Table DB_Manager.projects_def [bot_row; site_row])
  /\ second_project !! "status"
     = Some (Table DB_Manager.status_def seeded_statuses)
  /\ NoDup (map (field 0) seeded_statuses)
  /\ integer_arg (VInt 7)
  /\ DB_Manager.get_projects (VInt 7) second_project
     = (inr (map (fun p => [ field 0 p; field 2 p; field 3 p; field 4 p;
                             status_name_of seeded_statuses (field 5 p) ])
                 (List.filter (project_of_user (VInt 7))
                              [bot_row; site_row])), second_project).
Proof.
  split; [exact second_project_projects|].
  split; [exact second_project_status|].
  assert (H7 : integer_arg (VInt 7)) by of_class.
  split; [exact seeded_statuses_ids|]. split; [exact H7|].
  exact (get_projects_rows second_project [bot_row; site_row] seeded_statuses
           second_project_projects second_project_status seeded_statuses_ids
           (VInt 7) H7).
Defined.

Lemma get_project_info_rows_witness :
  second_project !! "projects"
  = Some (Table DB_Manager.projects_def [bot_row; site_row])
  /\ second_project !! "status"
     = Some (Table DB_Manager.status_def seeded_statuses)
  /\ NoDup (map (field 0) seeded_statuses)
  /\ integer_arg (VInt 7) /\ text_arg (VText "Site")
  /\ DB_Manager.get_project_info (VInt 7) (VText "Site") second_project
     = (inr (map (fun p => [ field 2 p; field 3 p; field 4 p;
                             status_name_of seeded_statuses (field 5 p) ])
                 (List.filter (project_named (VText "Site") (VInt 7))
                              [bot_row; site_row])), second_project).
Proof.
  split; [exact second_project_projects|].
  split; [exact second_project_status|].
  assert (H7 : integer_arg (VInt 7)) by of_class.
  split; [exact seeded_statuses_ids|].
  split; [exact H7|]. split; [exact I|].
  exact (get_project_info_rows second_project [bot_row; site_row]
           seeded_statuses second_project_projects second_project_status
           seeded_statuses_ids (VInt 7) (VText "Site") H7 I).
Defined.


(** ** Listing the tables *)

Lemma string_compare_trans (a : string) :
  forall b c,
    String.compare a b <> Gt -> String.compare b c <> Gt ->
    String.compare a c <> Gt.
Proof.
  induction a as [|x a IH]; intros [|y b] [|z c]; simpl; try congruence.
  unfold Ascii.compare.
  destruct (N.compare_spec (Ascii.N_of_ascii x) (Ascii.N_of_ascii y)) as [Hxy|Hxy|Hxy];
    destruct (N.compare_spec (Ascii.N_of_ascii y) (Ascii.N_of_ascii z)) as [Hyz|Hyz|Hyz];
    destruct (N.compare_spec (Ascii.N_of_ascii x) (Ascii.N_of_ascii z)) as [Hxz|Hxz|Hxz];
    try congruence; try lia.
  apply IH.
Qed.

#[global] Instance name_le_total : Total name_le.
Proof. intros a b. apply String.leb_total. Qed.

#[global] Instance name_le_trans : Transitive name_le.
Proof.
  intros a b c. unfold name_le, String.leb. intros Hab Hbc.
  pose proof (string_compare_trans a b c) as Htrans.
  destruct (String.compare a b); try discriminate Hab;
    destruct (String.compare b c); try discriminate Hbc;
    destruct (String.compare a c); try reflexivity;
    exfalso; apply Htrans; congruence.
Qed.

Lemma table_names_lookup (d : database) (t : string) :
  In t (table_names d) <-> is_Some (d !! t).
Proof.
  unfold table_names. rewrite <- list_elem_of_In, list_elem_of_fmap. split.
  - intros ([t' tb] & -> & Hin). apply elem_of_map_to_list in Hin. eauto.
  - intros [tb Htb]. exists (t, tb). split; [reflexivity|].
    apply elem_of_map_to_list. exact Htb.
Qed.

Lemma sorted_table_names (d : database) :
  (forall t, In t (merge_sort name_le (table_names d)) <-> is_Some (d !! t))
  /\ NoDup (merge_sort name_le (table_names d))
  /\ StronglySorted name_le (merge_sort name_le (table_names d)).
Proof.
  split; [|split].
  - intros t. rewrite <- table_names_lookup, <- !list_elem_of_In.
    rewrite merge_sort_Permutation. reflexivity.
  - rewrite merge_sort_Permutation. unfold table_names.
    apply NoDup_fst_map_to_list.
  - apply StronglySorted_merge_sort; apply _.
Qed.

(** X13. [list_tables] returns the name of every table of the database and
    no other name, each once, in ascending byte order, and leaves the
    database as it was. *)
Theorem list_tables_sorted (d : database) :
  exists names,
    DatabaseManager.list_tables d = (inr names, d)
    /\ (forall t, In t names <-> is_Some (d !! t))
    /\ NoDup names
    /\ StronglySorted name_le names.
Proof.
  exists (merge_sort name_le (table_names d)).
  split; [reflexivity|]. apply sorted_table_names.
Qed.

Lemma create_if_absent_is_Some (name t : string) (def : table_def)
    (d : database) :
  is_Some (create_if_absent name def d !! t) <-> t = name \/ is_Some (d !! t).
Proof.
  split.
  - unfold create_if_absent. destruct (d !! name) as [tb|] eqn:Hd.
    + auto.
    + destruct (decide (name = t)) as [<-|Hne]; [auto|].
      rewrite lookup_insert_ne by exact Hne. auto.
  - intros [->|Ht]; apply create_if_absent_lookup; auto.
Qed.

(** X14. [main] of run_create.py raises on no database: it leaves the three
    tables of [DatabaseManager.create_tables] behind and prints the header
    and then one line for every table of the database, the lines for
    projects, status and users among them, the names ascending. *)
Theorem main_prints_tables (d : database) :
  exists names,
    run_create.main d
    = (inr ("Tables in database:" :: map (fun t => " - " +:+ t) names),
       DatabaseManager_created d)
    /\ (forall t, In t names <->
                  t = "projects" \/ t = "status" \/ t = "users"
                  \/ is_Some (d !! t))
    /\ NoDup names
    /\ StronglySorted name_le names.
Proof.
  destruct (sorted_table_names (DatabaseManager_created d))
    as (Hin & Hnd & Hsorted).
  exists (merge_sort name_le (table_names (DatabaseManager_created d))).
  split; [|split; [|split; assumption]].
  - unfold run_create.main, mbind', DatabaseManager.create_tables,
      with_connection.
    rewrite DatabaseManager_create_tables_run. reflexivity.
  - intros t. rewrite Hin. unfold DatabaseManager_created.
    rewrite !create_if_absent_is_Some. tauto.
Qed.


(** ** What creating the tables leaves of a database *)

Lemma create_if_absent_keeps (name t : string) (def : table_def)
    (d : database) (tb : table) :
  d !! t = Some tb -> create_if_absent name def d !! t = Some tb.
Proof.
  intros Ht. unfold create_if_absent.
  destruct (d !! name) as [tb'|] eqn:Hd; [exact Ht|].
  rewrite lookup_insert_ne; [exact Ht|]. intros <-. congruence.
Qed.

Lemma create_if_absent_new (name : string) (def : table_def) (d : database) :
  d !! name = None -> create_if_absent name def d !! name = Some (Table def []).
Proof.
  intros Hd. unfold create_if_absent. rewrite Hd. apply lookup_insert_eq.
Qed.

Lemma create_if_absent_other (name t : string) (def : table_def)
    (d : database) :
  t <> name -> create_if_absent name def d !! t = d !! t.
Proof.
  intros Hne. unfold create_if_absent.
  destruct (d !! name); [reflexivity|].
  apply lookup_insert_ne. congruence.
Qed.

(** X15. [DatabaseManager.create_tables] returns normally on every database;
    a table that exists, of these three names or any other, is left with its
    definition and its rows, and each of users, status and projects that is
    missing is created empty with the definition of the statement. *)
Theorem DatabaseManager_create_tables_keeps (d : database) :
  exists d',
    DatabaseManager.create_tables d = (inr tt, d')
    /\ (forall t tb, d !! t = Some tb -> d' !! t = Some tb)
    /\ (d !! "users" = None ->
        d' !! "users" = Some (Table DatabaseManager.users_def []))
    /\ (d !! "status" = None ->
        d' !! "status" = Some (Table DatabaseManager.status_def []))
    /\ (d !! "projects" = None ->
        d' !! "projects" = Some (Table DatabaseManager.projects_def []))
    /\ (forall t, t <> "users" -> t <> "status" -> t <> "projects" ->
                  d' !! t = d !! t).
Proof.
  exists (DatabaseManager_created d).
  split; [|split; [|split; [|split; [|split]]]].
  - unfold DatabaseManager.create_tables, with_connection.
    rewrite DatabaseManager_create_tables_run. reflexivity.
  - intros t tb Ht. unfold DatabaseManager_created.
    do 3 apply create_if_absent_keeps. exact Ht.
  - intros Hd. unfold DatabaseManager_created.
    rewrite !(create_if_absent_other _ "users") by discriminate.
    apply create_if_absent_new. exact Hd.
  - intros Hd. unfold DatabaseManager_created.
    rewrite (create_if_absent_other _ "status") by discriminate.
    apply create_if_absent_new.
    rewrite (create_if_absent_other _ "status") by discriminate. exact Hd.
  - intros Hd. unfold DatabaseManager_created.
    apply create_if_absent_new.
    rewrite !(create_if_absent_other _ "projects") by discriminate. exact Hd.
  - intros t Hu Hs Hp. unfold DatabaseManager_created.
    rewrite !create_if_absent_other by assumption. reflexivity.
Qed.

(** X16. On a database with none of its four tables
    [DB_Manager.create_tables] returns normally and creates them empty,
    leaving every other table as it was. *)
Theorem DB_Manager_create_tables_new (d : database) :
  d !! "projects" = None -> d !! "skills" = None ->
  d !! "project_skills" = None -> d !! "status" = None ->
  exists d',
    DB_Manager.create_tables d = (inr tt, d')
    /\ d' !! "projects" = Some (Table DB_Manager.projects_def [])
    /\ d' !! "skills" = Some (Table DB_Manager.skills_def [])
    /\ d' !! "project_skills" = Some (Table DB_Manager.project_skills_def [])
    /\ d' !! "status" = Some (Table DB_Manager.status_def [])
    /\ (forall t tb, d !! t = Some tb -> d' !! t = Some tb).
Proof.
  unfold DB_Manager.create_tables, with_connection, run_connection,
    DB_Manager.create_tables_body, mbind', conn_execute, connect. simpl.
  intros Hp Hs Hl Ht. rewrite Hp. simpl.
  rewrite lookup_insert_ne, Hs by discriminate. simpl.
  rewrite !lookup_insert_ne, Hl by discriminate. simpl.
  rewrite !lookup_insert_ne, Ht by discriminate. simpl.
  eexists. split; [reflexivity|].
  split; [by rewrite !lookup_insert_ne, lookup_insert_eq by discriminate|].
  split; [by rewrite !lookup_insert_ne, lookup_insert_eq by discriminate|].
  split; [by rewrite !lookup_insert_ne, lookup_insert_eq by discriminate|].
  split; [by apply lookup_insert_eq|].
  intros t tb Htb.
  rewrite !lookup_insert_ne; [exact Htb| | | |]; intros <-; congruence.
Qed.

(** X17. The statements of [DB_Manager.create_tables] are not undone by a
    later failure: when projects is missing and skills exists, the call
    raises [OperationalError("table skills already exists")] and the projects
    table it has just created stays, empty. *)
Theorem DB_Manager_create_tables_partial (d : database) :
  d !! "projects" = None -> is_Some (d !! "skills") ->
  DB_Manager.create_tables d
  = (inl (OperationalError "table skills already exists"),
     <["projects" := Table DB_Manager.projects_def []]> d).
Proof.
  unfold DB_Manager.create_tables, with_connection, run_connection,
    DB_Manager.create_tables_body, mbind', conn_execute, connect. simpl.
  intros Hp [ts Hs]. rewrite Hp. simpl.
  rewrite lookup_insert_ne, Hs by discriminate. reflexivity.
Qed.

Lemma DB_Manager_create_tables_new_witness :
  (∅ : database) !! "projects" = None
  /\ (∅ : database) !! "skills" = None
  /\ (∅ : database) !! "project_skills" = None
  /\ (∅ : database) !! "status" = None
  /\ exists d',
       DB_Manager.create_tables ∅ = (inr tt, d')
       /\ d' !! "projects" = Some (Table DB_Manager.projects_def [])
       /\ d' !! "skills" = Some (Table DB_Manager.skills_def [])
       /\ d' !! "project_skills"
          = Some (Table DB_Manager.project_skills_def [])
       /\ d' !! "status" = Some (Table DB_Manager.status_def [])
       /\ (forall t tb, (∅ : database) !! t = Some tb -> d' !! t = Some tb).
Proof.
  split; [reflexivity|]. split; [reflexivity|].
  split; [reflexivity|]. split; [reflexivity|].
  exact (DB_Manager_create_tables_new ∅ eq_refl eq_refl eq_refl eq_refl).
Defined.

Lemma DB_Manager_create_tables_partial_witness :
  skills_only !! "projects" = None
  /\ is_Some (skills_only !! "skills")
  /\ DB_Manager.create_tables skills_only
     = (inl (OperationalError "table skills already exists"),
        <["projects" := Table DB_Manager.projects_def []]> skills_only).
Proof.
  assert (Hs : is_Some (skills_only !! "skills")).
  { exists (Table DB_Manager.skills_def []). vm_compute. reflexivity. }
  split; [vm_compute; reflexivity|]. split; [exact Hs|].
  refine (DB_Manager_create_tables_partial skills_only _ Hs).
  vm_compute. reflexivity.
Defined.


(** ** Seeding across the two tables, and the two schemas *)

(** X18. [default_insert] is two transactions: when the skills table is
    there and the status table is missing, the call raises an
    [OperationalError] and the four skills it has stored before stay. *)
Theorem default_insert_partial (d : database) (rs : list row) :
  d !! "skills" = Some (Table DB_Manager.skills_def rs) ->
  d !! "status" = None ->
  exists (ns : list row),
    DB_Manager.default_insert d
    = (inl (OperationalError "no such table: status"),
       <["skills" := Table DB_Manager.skills_def (rs ++ ns)]> d)
    /\ map (field 1) ns = map VText ["Python"; "SQL"; "API"; "Discord"].
Proof.
  intros Hs Ht.
  destruct (seed_appends true "skills" "skill_id" "skill_name"
              (map VText ["Python"; "SQL"; "API"; "Discord"])
              ltac:(discriminate) d rs Hs) as (ns & Hrun & Hns).
  exists ns. split; [|exact Hns].
  unfold DB_Manager.default_insert, mbind', DB_Manager.__executemany.
  change skills with (map (fun v => [v])
                          (map VText ["Python"; "SQL"; "API"; "Discord"])).
  rewrite Hrun.
  change (keyed_def "skill_id" "skill_name") with DB_Manager.skills_def.
  unfold statuses. simpl. unfold sql_insert at 1, get_table.
  rewrite lookup_insert_ne, Ht by discriminate. reflexivity.
Qed.

(** X19. The two classes do not share a schema: on a database whose status
    table [DatabaseManager.create_tables] has created, with its column
    [name], the status readers of [DB_Manager] raise an [OperationalError]
    for the column [status_name], and [DB_Manager.create_tables] raises for
    the projects table that is there. *)
Theorem DatabaseManager_schema_not_shared (d : database) :
  d !! "status" = None ->
  exists d1,
    DatabaseManager.create_tables d = (inr tt, d1)
    /\ (forall status_name,
          exists msg,
            DB_Manager.get_status_id status_name d1
            = (inl (OperationalError msg), d1))
    /\ (exists msg,
          DB_Manager.get_statuses d1 = (inl (OperationalError msg), d1))
    /\ DB_Manager.create_tables d1
       = (inl (OperationalError "table projects already exists"), d1).
Proof.
  intros Hd. exists (DatabaseManager_created d).
  assert (Hst : DatabaseManager_created d !! "status"
                = Some (Table DatabaseManager.status_def [])).
  { unfold DatabaseManager_created.
    rewrite (create_if_absent_other _ "status") by discriminate.
    apply create_if_absent_new.
    rewrite (create_if_absent_other _ "status") by discriminate. exact Hd. }
  assert (Hpr : is_Some (DatabaseManager_created d !! "projects")).
  { unfold DatabaseManager_created. apply create_if_absent_lookup.
    left. reflexivity. }
  split; [|split; [|split]].
  - unfold DatabaseManager.create_tables, with_connection.
    rewrite DatabaseManager_create_tables_run. reflexivity.
  - intros status_name. eexists.
    unfold DB_Manager.get_status_id, DB_Manager.__select_data, mbind'.
    unfold sql_select, scan, get_table. rewrite Hst. reflexivity.
  - eexists. unfold DB_Manager.get_statuses, DB_Manager.__select_data.
    unfold sql_select, scan, get_table. rewrite Hst. reflexivity.
  - unfold DB_Manager.create_tables, with_connection.
    destruct (DB_Manager_create_tables_run (DatabaseManager_created d))
      as (res & d' & rest & -> & _ & _ & Hagain).
    destruct (Hagain Hpr) as [-> ->]. reflexivity.
Qed.

Lemma skills_only_skills :
  skills_only !! "skills" = Some (Table DB_Manager.skills_def []).
Proof. vm_compute. reflexivity. Defined.

Lemma default_insert_partial_witness :
  skills_only !! "skills" = Some (Table DB_Manager.skills_def [])
  /\ skills_only !! "status" = None
  /\ exists (ns : list row),
       DB_Manager.default_insert skills_only
       = (inl (OperationalError "no such table: status"),
          <["skills" := Table DB_Manager.skills_def ([] ++ ns)]> skills_only)
       /\ map (field 1) ns = map VText ["Python"; "SQL"; "API"; "Discord"].
Proof.
  assert (Ht : skills_only !! "status" = None) by (vm_compute; reflexivity).
  split; [exact skills_only_skills|]. split; [exact Ht|].
  exact (default_insert_partial skills_only [] skills_only_skills Ht).
Defined.

Lemma DatabaseManager_schema_not_shared_witness :
  (∅ : database) !! "status" = None
  /\ exists d1,
       DatabaseManager.create_tables ∅ = (inr tt, d1)
       /\ (forall status_name,
             exists msg,
               DB_Manager.get_status_id status_name d1
               = (inl (OperationalError msg), d1))
       /\ (exists msg,
             DB_Manager.get_statuses d1 = (inl (OperationalError msg), d1))
       /\ DB_Manager.create_tables d1
          = (inl (OperationalError "table projects already exists"), d1).
Proof.
  split; [reflexivity|].
  exact (DatabaseManager_schema_not_shared ∅ eq_refl).
Defined.


(** ** The generic helpers of [DatabaseManager] *)

Section Helpers.
Variable sql : sql_text.

(** X20. [execute] runs the statement with foreign-key enforcement on; what
    the statement does is committed when the call returns, with
    [commit=False] as with [commit=True], and a statement that raises leaves
    the database as it was.  [fetchall] is the same call. *)
Theorem execute_commits (params : list value) (commit : bool) (d : database) :
  DatabaseManager.execute sql params commit d
  = match sql true params d with
    | inl e => (inl e, d)
    | inr (rows, d') => (inr rows, d')
    end
  /\ DatabaseManager.execute sql params commit d
     = DatabaseManager.execute sql params (negb commit) d
  /\ DatabaseManager.fetchall sql params d
     = DatabaseManager.execute sql params commit d.
Proof.
  assert (H : forall c,
             DatabaseManager.execute sql params c d
             = match sql true params d with
               | inl e => (inl e, d)
               | inr (rows, d') => (inr rows, d')
               end).
  { intros c.
    unfold DatabaseManager.execute, with_session, mbind', ses_pragma_on,
      cur_execute, ses_open. simpl.
    destruct (sql true params d) as [e|[rows d']]; [reflexivity|].
    destruct c; reflexivity. }
  unfold DatabaseManager.fetchall. rewrite !H. auto.
Qed.



End Helpers.


(** ** Seeded statuses are found *)

Lemma seed_appends_ids (or_ignore : bool) (t idc namec : string)
    (vs : list value) :
  idc ≠ namec ->
  forall (d : database) (rows : list row),
    d !! t = Some (Table (keyed_def idc namec) rows) ->
    exists news,
      rfold (sql_insert or_ignore t [namec]) (map (fun v => [v]) vs) d
      = inr (<[t := Table (keyed_def idc namec) (rows ++ news)]> d)
      /\ map (field 1) news = vs
      /\ Forall (fun r => exists k, field 0 r = VInt k) news.
Proof.
  intros Hne. induction vs as [|v vs IH]; intros d rows Hd; simpl.
  - exists []. split; [|split; [reflexivity|constructor]].
    rewrite app_nil_r, (insert_id d t _ Hd). reflexivity.
  - rewrite (sql_insert_keyed or_ignore t idc namec v d rows Hne Hd). simpl.
    destruct (IH (<[t := Table (keyed_def idc namec)
                           (rows ++ [[VInt (next_rowid 0 rows); v]])]> d)
                 (rows ++ [[VInt (next_rowid 0 rows); v]]))
      as (news & Hrun & Hnames & Hids); [apply lookup_insert_eq|].
    exists ([VInt (next_rowid 0 rows); v] :: news). split; [|split].
    + rewrite Hrun, insert_insert_eq, <- app_assoc. reflexivity.
    + simpl. rewrite Hnames. reflexivity.
    + constructor; [eexists; reflexivity|exact Hids].
Qed.

(** X22. After [default_insert], on tables whose status ids are integers,
    [get_status_id] finds each of the five seeded names: it returns an
    integer id, never [None]. *)
Theorem default_insert_then_get_status_id (d : database) (rs rt : list row)
    (name : string) :
  d !! "skills" = Some (Table DB_Manager.skills_def rs) ->
  d !! "status" = Some (Table DB_Manager.status_def rt) ->
  Forall (fun r => exists k, field 0 r = VInt k) rt ->
  In name ["Pembuatan Prototipe"; "Dalam Pengembangan";
           "Selesai, siap digunakan"; "Diperbarui";
           "Selesai, tapi tidak sedang dilanjutkan"] ->
  exists (d' : database) (id : Z),
    DB_Manager.default_insert d = (inr tt, d')
    /\ DB_Manager.get_status_id (VText name) d' = (inr (VInt id), d').
Proof.
  intros Hs Ht Hints Hname.
  destruct (seed_appends true "skills" "skill_id" "skill_name"
              (map VText ["Python"; "SQL"; "API"; "Discord"])
              ltac:(discriminate) d rs Hs) as (ns & Hrun1 & _).
  set (d1 := <["skills" := Table (keyed_def "skill_id" "skill_name")
                                  (rs ++ ns)]> d) in *.
  assert (Ht1 : d1 !! "status" = Some (Table DB_Manager.status_def rt)).
  { unfold d1. rewrite lookup_insert_ne by discriminate. exact Ht. }
  destruct (seed_appends_ids true "status" "status_id" "status_name"
              (map VText ["Pembuatan Prototipe"; "Dalam Pengembangan";
                          "Selesai, siap digunakan"; "Diperbarui";
                          "Selesai, tapi tidak sedang dilanjutkan"])
              ltac:(discriminate) d1 rt Ht1) as (nt & Hrun2 & Hnt & Hnew).
  set (d2 := <["status" := Table (keyed_def "status_id" "status_name")
                                  (rt ++ nt)]> d1) in *.
  assert (Hd2 : d2 !! "status" = Some (Table DB_Manager.status_def (rt ++ nt)))
    by (unfold d2; apply lookup_insert_eq).
  assert (Hall : Forall (fun r => exists k, field 0 r = VInt k) (rt ++ nt))
    by (apply Forall_app; auto).
  assert (Hsome : exists r, In r (rt ++ nt)
                            /\ status_named (VText name) r = true).
  { assert (Hin : In (VText name) (map (field 1) nt))
      by (rewrite Hnt; apply in_map; exact Hname).
    apply in_map_iff in Hin as (r & Hr & Hin). exists r. split.
    - apply in_or_app. right. exact Hin.
    - unfold status_named. rewrite Hr. simpl.
      apply bool_decide_eq_true_2. reflexivity. }
  destruct (List.filter (status_named (VText name)) (rt ++ nt))
    as [|r0 rest] eqn:Hf.
  { exfalso. destruct Hsome as (r & Hin & Hr).
    assert (Hr0 : In r (List.filter (status_named (VText name)) (rt ++ nt)))
      by (apply filter_In; auto).
    rewrite Hf in Hr0. destruct Hr0. }
  assert (Hr0 : In r0 (rt ++ nt)).
  { assert (H0 : In r0 (List.filter (status_named (VText name)) (rt ++ nt)))
      by (rewrite Hf; left; reflexivity).
    apply filter_In in H0 as [H0 _]. exact H0. }
  rewrite Forall_forall in Hall.
  destruct (Hall r0 (proj2 (list_elem_of_In _ _) Hr0)) as [k Hk].
  exists d2, k. split.
  - unfold DB_Manager.default_insert, mbind', DB_Manager.__executemany.
    change skills with (map (fun v => [v])
                            (map VText ["Python"; "SQL"; "API"; "Discord"])).
    rewrite Hrun1.
    change statuses
      with (map (fun v => [v])
                (map VText ["Pembuatan Prototipe"; "Dalam Pengembangan";
                            "Selesai, siap digunakan"; "Diperbarui";
                            "Selesai, tapi tidak sedang dilanjutkan"])).
    fold d1. rewrite Hrun2. reflexivity.
  - unfold DB_Manager.get_status_id, DB_Manager.__select_data, mbind'.
    rewrite (select_status_id d2 (rt ++ nt) (VText name) Hd2), Hf.
    simpl. unfold lift, item. simpl. rewrite Hk. reflexivity.
Qed.

Lemma default_insert_then_get_status_id_witness :
  second_project !! "skills" = Some (Table DB_Manager.skills_def seeded_skills)
  /\ second_project !! "status"
     = Some (Table DB_Manager.status_def seeded_statuses)
  /\ Forall (fun r => exists k, field 0 r = VInt k) seeded_statuses
  /\ In "Diperbarui" ["Pembuatan Prototipe"; "Dalam Pengembangan";
                      "Selesai, siap digunakan"; "Diperbarui";
                      "Selesai, tapi tidak sedang dilanjutkan"]
  /\ exists (d' : database) (id : Z),
       DB_Manager.default_insert second_project = (inr tt, d')
       /\ DB_Manager.get_status_id (VText "Diperbarui") d'
          = (inr (VInt id), d').
Proof.
  assert (Hints : Forall (fun r => exists k, field 0 r = VInt k)
                         seeded_statuses).
  { repeat constructor; eexists; reflexivity. }
  assert (Hin : In "Diperbarui"
                   ["Pembuatan Prototipe"; "Dalam Pengembangan";
                    "Selesai, siap digunakan"; "Diperbarui";
                    "Selesai, tapi tidak sedang dilanjutkan"]).
  { simpl. right. right. right. left. reflexivity. }
  split; [exact second_project_skills|].
  split; [exact second_project_status|].
  split; [exact Hints|]. split; [exact Hin|].
  exact (default_insert_then_get_status_id second_project seeded_skills
           seeded_statuses "Diperbarui" second_project_skills
           second_project_status Hints Hin).
Defined.


(** ** Project ids stay distinct *)

Lemma NoDup_map_filter {A B} (f : A -> B) (p : A -> bool) (l : list A) :
  NoDup (map f l) -> NoDup (map f (List.filter p l)).
Proof.
  induction l as [|a l IH]; simpl; intros Hnd; [constructor|].
  apply NoDup_cons in Hnd as [Ha Hnd].
  destruct (p a); simpl; [|exact (IH Hnd)].
  apply NoDup_cons. split; [|exact (IH Hnd)].
  intros Hin. apply Ha.
  apply list_elem_of_In in Hin. apply list_elem_of_In.
  apply in_map_iff in Hin as (x & Hx & Hin). apply filter_In in Hin as [Hin _].
  apply in_map_iff. eauto.
Qed.

Lemma update_keeps_ids (rows : list row) (hit : row -> bool) (j : nat)
    (v : value) :
  j <> 0%nat ->
  map (field 0) (map (fun r => if hit r then <[j := v]> r else r) rows)
  = map (field 0) rows.
Proof.
  intros Hj. rewrite map_map. apply map_ext. intros r.
  destruct (hit r); [|reflexivity].
  unfold field. rewrite list_lookup_insert_ne by exact Hj. reflexivity.
Qed.

(** What [update_projects] can leave of the projects table, for any column
    name and any tuple: the table as it was, or the rows with one column
    other than the id rewritten. *)
Lemma update_projects_outcome (d : database) (rows : list row)
    (param : string) (data : row) :
  d !! "projects" = Some (Table DB_Manager.projects_def rows) ->
  exists rows',
    (DB_Manager.update_projects param data d).2 !! "projects"
    = Some (Table DB_Manager.projects_def rows')
    /\ map (field 0) rows' = map (field 0) rows.
Proof.
  intros Hd. unfold DB_Manager.update_projects.
  destruct (decide (param ∈ DB_Manager.allowed)) as [Hin|Hout].
  2: { rewrite bool_decide_eq_true_2 by exact Hout. exists rows. auto. }
  rewrite bool_decide_eq_false_2 by (intros Hn; exact (Hn Hin)).
  assert (Hlist : In param ["project_name"; "description"; "url"; "status_id"]).
  { unfold DB_Manager.allowed in Hin.
    rewrite !elem_of_union, !elem_of_singleton in Hin. simpl.
    destruct Hin as [[[->| ->]| ->]| ->]; auto 6. }
  destruct (allowed_columns param Hlist) as (_ & j & cdef & Hj & Hc & Hu).
  assert (Hj0 : j <> 0%nat).
  { intros ->. destruct Hlist as [<-|[<-|[<-|[<-|[]]]]]; discriminate Hj. }
  assert (Hgc : get_col DB_Manager.projects_def param = inr j)
    by (unfold get_col; rewrite Hj; reflexivity).
  destruct data as [|v [|u [|p [|x data]]]].
  - exists rows. unfold DB_Manager.__executemany, rfold, sql_update, get_table.
    rewrite Hd. simpl. rewrite Hgc. auto.
  - exists rows. unfold DB_Manager.__executemany, rfold, sql_update, get_table.
    rewrite Hd. simpl. rewrite Hgc. auto.
  - exists rows. unfold DB_Manager.__executemany, rfold, sql_update, get_table.
    rewrite Hd. simpl. rewrite Hgc. auto.
  - pose proof (update_projects_rows d rows param j cdef v u p Hd Hin Hgc Hc Hu)
      as Hup.
    unfold DB_Manager.update_projects in Hup.
    rewrite bool_decide_eq_false_2 in Hup by (intros Hn; exact (Hn Hin)).
    rewrite Hup.
    destruct (bool_decide _); [exists rows; auto|].
    destruct (col_not_null cdef && is_null v); [exists rows; auto|].
    eexists. split; [apply lookup_insert_eq|].
    apply update_keeps_ids. exact Hj0.
  - exists rows. unfold DB_Manager.__executemany, rfold, sql_update, get_table.
    rewrite Hd. simpl. rewrite Hgc. auto.
Qed.

(** X23. The three methods that write projects keep its ids pairwise
    distinct, and keep the table, whatever their arguments and whether they
    return or raise: [insert_project], [update_projects] and
    [delete_project]. *)
Theorem project_ids_stay_distinct (d : database) (rows : list row) :
  d !! "projects" = Some (Table DB_Manager.projects_def rows) ->
  NoDup (map (field 0) rows) ->
  forall d',
    (exists data, d' = (DB_Manager.insert_project data d).2)
    \/ (exists param data, d' = (DB_Manager.update_projects param data d).2)
    \/ (exists user_id project_id,
          d' = (DB_Manager.delete_project user_id project_id d).2) ->
    exists rows',
      d' !! "projects" = Some (Table DB_Manager.projects_def rows')
      /\ NoDup (map (field 0) rows').
Proof.
  intros Hd Hnd d' [[data ->]|[(param & data & ->)|(u & p & ->)]].
  - unfold DB_Manager.insert_project, DB_Manager.__executemany.
    fold project_columns.
    destruct (rfold (sql_insert false "projects" project_columns) data d)
      as [e|d1] eqn:Hrun; simpl; [eauto|].
    destruct (rfold_insert_projects data d d1 rows Hd Hrun)
      as (news & -> & _ & _ & _ & Hkeep).
    eexists. split; [apply lookup_insert_eq|auto].
  - destruct (update_projects_outcome d rows param data Hd)
      as (rows' & Hrows' & Hids).
    exists rows'. split; [exact Hrows'|]. rewrite Hids. exact Hnd.
  - rewrite (delete_project_rows d rows u p Hd). simpl.
    eexists. split; [apply lookup_insert_eq|].
    apply NoDup_map_filter. exact Hnd.
Qed.

Lemma bot_site_ids : NoDup (map (field 0) [bot_row; site_row]).
Proof. apply (bool_decide_unpack _). vm_compute. exact I. Defined.

Lemma project_ids_stay_distinct_witness :
  second_project !! "projects"
  = Some (Table DB_Manager.projects_def [bot_row; site_row])
  /\ NoDup (map (field 0) [bot_row; site_row])
  /\ exists rows',
       (DB_Manager.update_projects "url" [VText "x"; VInt 7; VInt 1]
                                   second_project).2 !! "projects"
       = Some (Table DB_Manager.projects_def rows')
       /\ NoDup (map (field 0) rows').
Proof.
  split; [exact second_project_projects|]. split; [exact bot_site_ids|].
  refine (project_ids_stay_distinct second_project [bot_row; site_row]
            second_project_projects bot_site_ids _ _).
  right. left. exists "url", [VText "x"; VInt 7; VInt 1]. reflexivity.
Defined.
